(** * pruning-er: the s1k data-preparation and OpenRouter test scripts

    A shallow embedding of
      - [scripts/responses.py]: [load_question], [build_messages],
        [call_openrouter], [_join_reasoning_details],
        [extract_reasoning_and_answer] and [main];
      - [data/prep_s1k_chatml.py]: the conversion loop.

    Python values decoded from JSON are the inductive [json]; a Python
    [dict] is a [gmap string json].  A Python [str] is a Rocq [string] whose
    characters are read as code points below 256.  A raised exception is
    the [Raise] branch of the error monad [result]. *)

From Stdlib Require Import ZArith String Ascii DecimalString.
From Stdlib Require Import Floats.SpecFloat.
From stdpp Require Import gmap strings list fin_maps.

#[local] Set Warnings "-register-all".
#[local] Open Scope string_scope.
#[local] Open Scope Z_scope.

(** ** Python values *)

Module Py.

(** What [json.loads] produces: [None], [bool], [int], [float], [str],
    [list] and [dict] with string keys. *)
Inductive json : Type :=
| JNull
| JBool (b : bool)
| JInt (n : Z)
| JFloat (f : spec_float)
| JStr (s : string)
| JArr (l : list json)
| JObj (m : gmap string json).

(** The exceptions the scripts can meet.  [SystemExit] carries what was
    given to [sys.exit] / [raise SystemExit(...)]: an integer status or a
    message string. *)
Inductive exit_arg : Type :=
| ExitCode (n : Z)
| ExitMsg (msg : string).

Inductive exn : Type :=
| SystemExit (a : exit_arg)
| HTTPError (status : Z)
| ConnectionError
| JSONDecodeError
| AttributeError
| TypeError
| KeyError
| IndexError
| IsADirectoryError
| UnicodeEncodeError
| InvalidJSONError.

Inductive result (A : Type) : Type :=
| Ok (a : A)
| Raise (e : exn).
Arguments Ok {A} a.
Arguments Raise {A} e.

#[global] Instance result_ret : MRet result := fun A a => Ok a.
#[global] Instance result_bind : MBind result :=
  fun A B f r => match r with Ok a => f a | Raise e => Raise e end.

Definition is_ok {A} (r : result A) : bool :=
  match r with Ok _ => true | Raise _ => false end.

(** Truth value of a Python object ([bool(v)]). *)
Definition float_is_zero (f : spec_float) : bool :=
  match f with S754_zero _ => true | _ => false end.

Definition str_nonempty (s : string) : bool :=
  match s with EmptyString => false | String _ _ => true end.

Definition truthy (v : json) : bool :=
  match v with
  | JNull => false
  | JBool b => b
  | JInt n => negb (n =? 0)
  | JFloat f => negb (float_is_zero f)
  | JStr s => str_nonempty s
  | JArr l => match l with [] => false | _ :: _ => true end
  | JObj m => negb (bool_decide (m = ∅))
  end.

(** [a or b], for already evaluated operands. *)
Definition py_or (a b : json) : json := if truthy a then a else b.

(** An [Optional[str]] seen as a Python object. *)
Definition of_opt_str (o : option string) : json :=
  match o with Some s => JStr s | None => JNull end.

(** [d.get(k)] and [d.get(k, default)]: only a [dict] has the method. *)
Definition py_get_default (d : json) (k : string) (dflt : json) : result json :=
  match d with
  | JObj m => Ok (default dflt (m !! k))
  | _ => Raise AttributeError
  end.

Definition py_get (d : json) (k : string) : result json :=
  py_get_default d k JNull.

(** [d[k]] on a dict. *)
Definition py_item (m : gmap string json) (k : string) : result json :=
  match m !! k with Some v => Ok v | None => Raise KeyError end.

(** [v[0]]. A dict decoded from JSON has no integer key. *)
Definition py_first (v : json) : result json :=
  match v with
  | JArr (x :: _) => Ok x
  | JArr [] => Raise IndexError
  | JStr (String c _) => Ok (JStr (String c EmptyString))
  | JStr EmptyString => Raise IndexError
  | JObj _ => Raise KeyError
  | _ => Raise TypeError
  end.

(** [for d in v]: the elements of a list, the characters of a string, the
    keys of a dict; anything else is not iterable. *)
Definition py_iter (v : json) : result (list json) :=
  match v with
  | JArr l => Ok l
  | JStr s => Ok ((fun c => JStr (String c EmptyString)) <$> list_ascii_of_string s)
  | JObj m => Ok (JStr <$> (map_to_list m).*1)
  | _ => Raise TypeError
  end.

(** [str.isspace] on one character (code points below 256). *)
Definition isspace (c : ascii) : bool :=
  let n := N_of_ascii c in
  ((9 <=? n) && (n <=? 13) || (28 <=? n) && (n <=? 31)
   || (n =? 32) || (n =? 133) || (n =? 160))%N.

Fixpoint lstrip (s : string) : string :=
  match s with
  | EmptyString => EmptyString
  | String c s' => if isspace c then lstrip s' else s
  end.

Definition rev_string (s : string) : string :=
  string_of_list_ascii (rev (list_ascii_of_string s)).

Definition rstrip (s : string) : string := rev_string (lstrip (rev_string s)).

(** [s.strip()] *)
Definition strip (s : string) : string := rstrip (lstrip s).

(** [sep.join(parts)] *)
Fixpoint join (sep : string) (parts : list string) : string :=
  match parts with
  | [] => EmptyString
  | [p] => p
  | p :: rest => p ++ sep ++ join sep rest
  end.

Definition LF : string := String "010"%char EmptyString.

(** [str(n)] for an [int]. *)
Definition str_of_int (n : Z) : string := NilZero.string_of_int (Z.to_int n).

(** The parts of the Python runtime the scripts call but whose text
    output is not reproduced here: [repr] of floats, lists and dicts (used
    by [str]), [json.loads] ([None] when the text is not valid JSON),
    [json.dumps] and the normal form of a [pathlib.Path]. *)
Class Runtime : Type := {
  py_repr : json -> string;
  json_loads : string -> option json;
  json_dumps : json -> string;
  path_str : string -> string
}.

(** [str(v)] *)
Definition py_str `{Runtime} (v : json) : string :=
  match v with
  | JStr s => s
  | JNull => "None"
  | JBool true => "True"
  | JBool false => "False"
  | JInt n => str_of_int n
  | JFloat _ | JArr _ | JObj _ => py_repr v
  end.

End Py.
Export Py.

(** ** scripts/responses.py *)

Module Responses.

(** The outside world of the client: a path names a regular file (its
    lines, as iterating over the open file yields them), a directory, or
    nothing. *)
Inductive fs_entry : Type :=
| RegularFile (lines : list string)
| Directory.

(** What [requests.post] is given and what it answers. [json_body] is the
    outcome of [resp.json()]: [None] when the body is not valid JSON. *)
Record request : Type := {
  req_url : string;
  req_headers : gmap string string;
  req_json : gmap string json;
  req_timeout : Z
}.

Record response : Type := {
  status_code : Z;
  json_body : option json
}.

Record world : Type := {
  environ : gmap string string;
  fs : gmap string fs_entry;
  (** [None]: no response at all (connection error, timeout). *)
  post : request -> option response
}.

(** [Response.raise_for_status] of the [requests] library: an [HTTPError]
    for the client-error and server-error classes, 400 to 599, and
    nothing for any other status code. *)
Definition raise_for_status (resp : response) : result unit :=
  if (400 <=? status_code resp) && (status_code resp <? 600)
  then Raise (HTTPError (status_code resp))
  else Ok tt.

(** [Response.json] *)
Definition response_json (resp : response) : result json :=
  match json_body resp with
  | Some j => Ok j
  | None => Raise JSONDecodeError
  end.

Definition OPENROUTER_URL : string :=
  "https://openrouter.ai/api/v1/chat/completions".

(** [--reasoning-effort] has [choices=["low", "medium", "high"]]. *)
Inductive effort : Type := low | medium | high.

Definition effort_str (e : effort) : string :=
  match e with low => "low" | medium => "medium" | high => "high" end.

(** The namespace [argparse] returns. *)
Record argv : Type := {
  arg_model : string;
  arg_question : option string;
  arg_from_jsonl : string;
  arg_index : Z;
  arg_max_tokens : Z;
  arg_temperature : spec_float;
  arg_json_mode : bool;
  arg_reasoning_effort : effort;
  arg_no_usage_details : bool;
  arg_show_payload : bool
}.

(** 0.7 as a binary64 number *)
Definition float_0_7 : spec_float := S754_finite false 6305039478318694 (-53).

Definition default_args : argv := {|
  arg_model := "openai/gpt-oss-20b:free";
  arg_question := None;
  arg_from_jsonl := "data/s1k-1.1/train_mini.jsonl";
  arg_index := 0;
  arg_max_tokens := 16384;
  arg_temperature := float_0_7;
  arg_json_mode := false;
  arg_reasoning_effort := medium;
  arg_no_usage_details := false;
  arg_show_payload := false
|}.

Section WithRuntime.
Context `{RT : Runtime}.

(** The loop [for i, line in enumerate(f): if i == index: return
    json.loads(line)], started at count [i]; [None] when the loop falls
    through. *)
Fixpoint find_line (lines : list string) (i index : Z) : option (result json) :=
  match lines with
  | [] => None
  | line :: rest =>
      if i =? index then
        Some (match json_loads line with
              | Some ex => Ok ex
              | None => Raise JSONDecodeError
              end)
      else find_line rest (i + 1) index
  end.

Definition load_question (files : gmap string fs_entry)
    (from_jsonl : option string) (index : Z)
    (fallback_question : option string) : result json :=
  if truthy (of_opt_str fallback_question) then
    Ok (JObj {[ "question" := of_opt_str fallback_question ]})
  else if negb (truthy (of_opt_str from_jsonl)) then
    Ok (JObj {[ "question" :=
                  JStr "What is the sum of the first 10 positive integers?" ]})
  else
    let path := default "" from_jsonl in
    match files !! path with
    | None => Raise (SystemExit (ExitMsg ("JSONL not found: " ++ path_str path)))
    | Some Directory => Raise IsADirectoryError
    | Some (RegularFile lines) =>
        match find_line lines 0 index with
        | Some ex => ex
        | None =>
            Raise (SystemExit (ExitMsg
              ("Index " ++ str_of_int index ++ " out of range for "
               ++ path_str path)))
        end
    end.

Definition build_messages (question : string) : json :=
  let system :=
    "You are a helpful assistant. You are given a question and you need to answer it." in
  let user := "Question:" ++ LF ++ question in
  JArr [ JObj {[ "role" := JStr "system"; "content" := JStr system ]};
         JObj {[ "role" := JStr "user"; "content" := JStr user ]} ].

Definition call_openrouter (send : request -> option response)
    (api_key model : string) (messages : json) (max_tokens : Z)
    (temperature : spec_float) (json_mode : bool) (request_timeout : Z)
    (referer title reasoning_effort : option string)
    (include_usage_details : bool) : result json :=
  let headers : gmap string string :=
    {[ "Authorization" := "Bearer " ++ api_key;
       "Content-Type" := "application/json" ]} in
  let headers :=
    if truthy (of_opt_str referer)
    then <[ "HTTP-Referer" := default "" referer ]> headers else headers in
  let headers :=
    if truthy (of_opt_str title)
    then <[ "X-Title" := default "" title ]> headers else headers in
  let payload : gmap string json :=
    {[ "model" := JStr model;
       "messages" := messages;
       "temperature" := JFloat temperature;
       "max_tokens" := JInt max_tokens ]} in
  let payload :=
    if json_mode
    then <[ "response_format" := JObj {[ "type" := JStr "json_object" ]} ]> payload
    else payload in
  let payload :=
    if truthy (of_opt_str reasoning_effort)
    then <[ "reasoning" := JObj {[ "effort" := of_opt_str reasoning_effort ]} ]> payload
    else payload in
  let payload :=
    if include_usage_details
    then <[ "usage" := JObj {[ "include" := JBool true ]} ]> payload
    else payload in
  match send {| req_url := OPENROUTER_URL; req_headers := headers;
                req_json := payload; req_timeout := request_timeout |} with
  | None => Raise ConnectionError
  | Some resp => _ ← raise_for_status resp; response_json resp
  end.

(** The body of the loop of [_join_reasoning_details]: the text appended
    for entry [d], if any. *)
Definition text_fragment (d : json) : option string :=
  match d with
  | JObj m =>
      match m !! "text" with
      | Some (JStr t) => if str_nonempty t then Some t else None
      | _ => None
      end
  | _ => None
  end.

Definition _join_reasoning_details (details : json) : result string :=
  if negb (truthy details) then Ok ""
  else
    ds ← py_iter details;
    Ok (strip (join LF (omap text_fragment ds))).

Definition extract_reasoning_and_answer (resp_json : json)
    : result (string * string * json) :=
  choices0 ← py_get resp_json "choices";
  let choices := py_or choices0 (JArr []) in
  if negb (truthy choices) then Ok ("", "", JObj ∅)
  else
    choice ← py_first choices;
    msg0 ← py_get_default choice "message" (JObj ∅);
    let msg := py_or msg0 (JObj ∅) in
    r ← py_get msg "reasoning";
    reasoning ←
      (if truthy r then Ok r
       else
         d1 ← py_get msg "reasoning_details";
         j1 ← _join_reasoning_details d1;
         if str_nonempty j1 then Ok (JStr j1)
         else
           d2 ← py_get resp_json "reasoning_details";
           j2 ← _join_reasoning_details d2;
           Ok (py_or (JStr j2) (JStr "")));
    c ← py_get msg "content";
    let content := py_or c (JStr "") in
    finish_reason ← py_get choice "finish_reason";
    native_finish_reason ← py_get choice "native_finish_reason";
    role ← py_get msg "role";
    let meta : gmap string json :=
      {[ "finish_reason" := finish_reason;
         "native_finish_reason" := native_finish_reason;
         "role" := role ]} in
    Ok (py_str (py_or reasoning (JStr "")), py_str (py_or content (JStr "")),
        JObj meta).

(** [os.environ.get(name) or fallback] *)
Definition environ_or (env : gmap string string) (name fallback : string) : string :=
  match env !! name with
  | Some v => if str_nonempty v then v else fallback
  | None => fallback
  end.

(** [main] from the key on, for parsed arguments and on a standard
    output that takes every print: the [try ... except
    requests.HTTPError] around the call turns an [HTTPError] into
    [sys.exit(1)] and lets any other exception through.  [main_program]
    below adds the argument parsing and the prints. *)
Definition main (w : world) (args : argv) : result unit :=
  let api_key := environ w !! "OPENROUTER_API_KEY" in
  if negb (truthy (of_opt_str api_key)) then Raise (SystemExit (ExitCode 2))
  else
    ex ← load_question (fs w) (Some (arg_from_jsonl args)) (arg_index args)
           (arg_question args);
    q1 ← py_get ex "question";
    question ←
      (if truthy q1 then Ok q1
       else q2 ← py_get ex "prompt";
            Ok (py_or q2 (of_opt_str (arg_question args))));
    if negb (truthy question) then
      Raise (SystemExit (ExitMsg "Could not determine a question to send."))
    else
      let messages := build_messages (py_str question) in
      let referer := environ_or (environ w) "OPENROUTER_SITE_URL" "http://localhost" in
      let title := environ_or (environ w) "OPENROUTER_TITLE" "s1k-generation-test" in
      resp_json ←
        match
          call_openrouter (post w) (default "" api_key) (arg_model args)
            messages (arg_max_tokens args) (arg_temperature args)
            (arg_json_mode args) 120 (Some referer) (Some title)
            (Some (effort_str (arg_reasoning_effort args)))
            (negb (arg_no_usage_details args))
        with
        | Raise (HTTPError _) => Raise (SystemExit (ExitCode 1))
        | r => r
        end;
      _ ← extract_reasoning_and_answer resp_json;
      usage ← py_get_default resp_json "usage" (JObj ∅);
      _ ← py_get resp_json "id";
      _ ← py_get resp_json "model";
      _ ← py_get resp_json "provider";
      _ ← py_get usage "prompt_tokens_details";
      _ ← py_get usage "completion_tokens_details";
      _ ← py_get resp_json "reasoning";
      has_choices ← py_get resp_json "choices";
      _ ← (if truthy has_choices then
             choices ← py_get_default resp_json "choices" (JArr [JObj ∅]);
             choice ← py_first choices;
             msg ← py_get_default choice "message" (JObj ∅);
             py_get msg "metadata"
           else Ok JNull);
      Ok tt.

End WithRuntime.

(** The status the interpreter exits with: 0 when the program returns,
    the integer given to [sys.exit], and 1 for a [SystemExit] carrying a
    message or for any uncaught exception. *)
Definition exit_status (r : result unit) : Z :=
  match r with
  | Ok _ => 0
  | Raise (SystemExit (ExitCode n)) => n
  | Raise _ => 1
  end.

End Responses.

(** ** data/prep_s1k_chatml.py *)

Module PrepS1k.
Section WithRuntime.
Context `{RT : Runtime}.

Definition OUT : string := "data/s1k-chatml.jsonl".

(** [v.strip()]: a method of [str] only. *)
Definition py_strip (v : json) : result string :=
  match v with
  | JStr s => Ok (strip s)
  | _ => Raise AttributeError
  end.

Definition message (role content : string) : json :=
  JObj {[ "role" := JStr role; "content" := JStr content ]}.

(** The body of the loop over the dataset: the object written for row
    [ex]. *)
Definition row_record (ex : gmap string json) : result json :=
  q0 ← py_item ex "question";
  q ← py_strip q0;
  a0 ← py_item ex "attempt";
  let ans := strip (py_str a0) in
  t0 ← py_get (JObj ex) "thinking_trajectories";
  let trace_list := py_or t0 (JArr []) in
  t1 ← (if truthy trace_list then py_first trace_list else Ok (JStr ""));
  trace ← py_strip t1;
  Ok (JObj {[ "messages" :=
                JArr [ message "user" q; message "think" trace;
                       message "answer" ans ] ]}).

(** [json.dumps(obj, ensure_ascii=False) + "\n"] *)
Definition record_line (obj : json) : string := json_dumps obj ++ LF.

(** The loop [for ex in ds], writing into the lines [f] of the output
    file; an exception stops the script and leaves what was written. *)
Fixpoint write_rows (ds : list (gmap string json)) (f : list string)
    : list string * result unit :=
  match ds with
  | [] => (f, Ok tt)
  | ex :: rest =>
      match row_record ex with
      | Ok obj => write_rows rest (f ++ [record_line obj])
      | Raise e => (f, Raise e)
      end
  end.

(** The script on dataset [ds]: the lines of [OUT], opened with mode "w",
    and how the script ended. *)
Definition prep_s1k_chatml (ds : list (gmap string json))
    : list string * result unit :=
  write_rows ds [].

End WithRuntime.
End PrepS1k.

(** ** Shapes of the data the claims speak about *)

Module Shape.
Import Responses PrepS1k.

Definition is_dict (v : json) : bool :=
  match v with JObj _ => true | _ => false end.

Definition is_list (v : json) : bool :=
  match v with JArr _ => true | _ => false end.

Definition is_str (v : json) : bool :=
  match v with JStr _ => true | _ => false end.

(** A field that is absent, holds a false value ([null], an empty list,
    ...), or holds a value of the expected kind. *)
Definition absent_or (kind : json -> bool) (o : option json) : bool :=
  match o with
  | None => true
  | Some v => negb (truthy v) || kind v
  end.

(** The message of the first choice of response [m], as the extraction
    sees it: the empty dict when there is none. *)
Definition first_message (m : gmap string json) : gmap string json :=
  match m !! "choices" with
  | Some (JArr (JObj choice :: _)) =>
      match choice !! "message" with
      | Some (JObj msg) => msg
      | _ => ∅
      end
  | _ => ∅
  end.

(** A response with at least one choice, the first of which is an
    object. *)
Definition has_first_choice (m : gmap string json) : bool :=
  match m !! "choices" with
  | Some (JArr (JObj _ :: _)) => true
  | _ => false
  end.

Definition first_choice_message (m : gmap string json) : option json :=
  match m !! "choices" with
  | Some (JArr (JObj choice :: _)) => choice !! "message"
  | _ => None
  end.

(** The choices of a chat-completions response: [choices] is absent,
    false or a list starting with an object whose [message] is absent,
    false or an object. *)
Definition choice_shape (m : gmap string json) : bool :=
  (absent_or (fun _ => false) (m !! "choices") || has_first_choice m)
  && absent_or is_dict (first_choice_message m).

(** A chat-completions response: its choices have the shape above and
    both [reasoning_details] fields are absent, false or lists. *)
Definition response_shape (m : gmap string json) : bool :=
  choice_shape m
  && absent_or is_list (first_message m !! "reasoning_details")
  && absent_or is_list (m !! "reasoning_details").

(** An entry of a [reasoning_details] list that contributes a fragment: a
    dict whose [text] is a non-empty string. *)
Definition has_text (d : json) : bool :=
  match d with
  | JObj entry =>
      match entry !! "text" with
      | Some (JStr t) => str_nonempty t
      | _ => false
      end
  | _ => false
  end.

(** The text fragments of a [reasoning_details] field. *)
Definition fragments (o : option json) : list string :=
  match o with
  | Some (JArr l) => omap text_fragment l
  | _ => []
  end.

(** The first true value among [candidates], as a chain of [or] ending
    in the empty string selects it. *)
Definition first_true (candidates : list json) : json :=
  hd (JStr "") (List.filter truthy candidates).

(** The value of the [reasoning] field of a message, [None] when absent. *)
Definition message_reasoning (msg : gmap string json) : json :=
  default JNull (msg !! "reasoning").

Section WithRuntime.
Context `{RT : Runtime}.

(** The reasoning trace as the specification words it: the first
    non-empty of [message.reasoning], the newline-joined fragments of
    [message.reasoning_details], the newline-joined fragments of the
    top-level [reasoning_details]. *)
Definition spec_reasoning_trace (m : gmap string json) : string :=
  py_str (first_true
    [ message_reasoning (first_message m);
      JStr (join LF (fragments (first_message m !! "reasoning_details")));
      JStr (join LF (fragments (m !! "reasoning_details"))) ]).

(** The same with each join stripped of surrounding whitespace, as
    [_join_reasoning_details] returns it. *)
Definition stripped_reasoning_trace (m : gmap string json) : string :=
  py_str (first_true
    [ message_reasoning (first_message m);
      JStr (strip (join LF (fragments (first_message m !! "reasoning_details"))));
      JStr (strip (join LF (fragments (m !! "reasoning_details")))) ]).

End WithRuntime.

(** A dataset row: [question] a string, [attempt] present,
    [thinking_trajectories] absent, [None] or a list of strings. *)
Definition dataset_row (ex : gmap string json) : bool :=
  match ex !! "question" with Some (JStr _) => true | _ => false end
  && match ex !! "attempt" with Some _ => true | None => false end
  && match ex !! "thinking_trajectories" with
     | None | Some JNull => true
     | Some (JArr l) => forallb is_str l
     | Some _ => false
     end.

(** The first trajectory of a dataset row, the empty string when it has
    none. *)
Definition first_trajectory (ex : gmap string json) : string :=
  match ex !! "thinking_trajectories" with
  | Some (JArr (JStr t :: _)) => t
  | _ => ""
  end.

(** [OPENROUTER_API_KEY] is set to a non-empty value. *)
Definition api_key_set (w : world) : bool :=
  truthy (of_opt_str (environ w !! "OPENROUTER_API_KEY")).

(** Every way [r] can fail ends the process with status 1: it does not
    raise [SystemExit] with another integer. *)
Definition fails_with_1 {A : Type} (r : result A) : bool :=
  match r with
  | Raise (SystemExit (ExitCode n)) => n =? 1
  | _ => true
  end.

(** Reading a written record back. *)
Definition record_messages (obj : json) : list json :=
  match obj with
  | JObj m => match m !! "messages" with Some (JArr l) => l | _ => [] end
  | _ => []
  end.

Definition message_role (msg : json) : option string :=
  match msg with
  | JObj m => match m !! "role" with Some (JStr r) => Some r | _ => None end
  | _ => None
  end.

Definition message_content (msg : json) : option string :=
  match msg with
  | JObj m => match m !! "content" with Some (JStr c) => Some c | _ => None end
  | _ => None
  end.

(** The content of the first message of [obj] with role [role]. *)
Definition content_of_role (role : string) (obj : json) : option string :=
  match filter (fun msg => message_role msg = Some role) (record_messages obj) with
  | msg :: _ => message_content msg
  | [] => None
  end.

End Shape.

(** ** Concrete inputs *)

Module Examples.
Import Responses PrepS1k.

(** A runtime on which the definitions evaluate; the examples do not
    depend on what it answers. *)
Definition plain_runtime : Runtime := {|
  py_repr := fun _ => "<object>";
  json_loads := fun _ => None;
  json_dumps := fun _ => "{}";
  path_str := fun p => p
|}.

(** [{"reasoning_details": [{"text": "x"}]}]: no choice, a top-level
    trace. *)
Definition only_top_level : gmap string json :=
  {[ "reasoning_details" := JArr [JObj {[ "text" := JStr "x" ]}] ]}.

(** [{"choices": [{"message": {"reasoning_details": [{"text": " a"}]}}]}] *)
Definition padded_fragment : gmap string json :=
  {[ "choices" := JArr [JObj {[ "message" := JObj
       {[ "reasoning_details" := JArr [JObj {[ "text" := JStr " a" ]}] ]} ]}] ]}.

(** [{"choices": [{"message": {"reasoning": "think", "content": "4",
      "reasoning_details": [{"text": "other"}]}}]}] *)
Definition both_sources : gmap string json :=
  {[ "choices" := JArr [JObj {[ "message" := JObj
       {[ "reasoning" := JStr "think"; "content" := JStr "4";
          "reasoning_details" := JArr [JObj {[ "text" := JStr "other" ]}] ]} ]}] ]}.

(** [{"choices": [{"message": {"content": "4"}}]}] *)
Definition no_reasoning : gmap string json :=
  {[ "choices" := JArr [JObj {[ "message" := JObj {[ "content" := JStr "4" ]} ]}] ]}.

(** [{"choices": [1]}] *)
Definition number_choice : gmap string json :=
  {[ "choices" := JArr [JInt 1] ]}.

(** The row of the specification's example. *)
Definition row_2_plus_2 : gmap string json :=
  {[ "question" := JStr "2+2?"; "attempt" := JStr "4";
     "thinking_trajectories" := JArr [JStr "Add the numbers."] ]}.

Definition row_no_trace : gmap string json :=
  {[ "question" := JStr "2+2?"; "attempt" := JStr "4" ]}.

(** A 304 answer with body [{}]. *)
Definition not_modified : response :=
  {| status_code := 304; json_body := Some (JObj ∅) |}.

Definition ok_empty : response :=
  {| status_code := 200; json_body := Some (JObj ∅) |}.

Definition not_found : response :=
  {| status_code := 404; json_body := Some (JObj ∅) |}.

(** The key is set, the default JSONL file does not exist, the server
    would answer 200. *)
Definition world_without_file : world :=
  {| environ := {[ "OPENROUTER_API_KEY" := "sk" ]};
     fs := ∅;
     post := fun _ => Some ok_empty |}.

Definition world_without_key : world :=
  {| environ := ∅; fs := ∅; post := fun _ => Some ok_empty |}.

Definition world_not_found : world :=
  {| environ := {[ "OPENROUTER_API_KEY" := "sk" ]};
     fs := ∅;
     post := fun _ => Some not_found |}.

Definition two_lines : gmap string fs_entry :=
  {[ "rows.jsonl" := RegularFile ["{}"; "{}"] ]}.

End Examples.

(** ** The end of [main] and the shapes it needs *)

Module Report.
Import Responses Shape.

(** The server gives the answer [resp] to every request. *)
Definition answers (w : world) (resp : response) : Prop :=
  forall req, post w req = Some resp.

(** A field that is absent or holds a dict. *)
Definition absent_or_dict (o : option json) : bool :=
  match o with
  | None => true
  | Some v => is_dict v
  end.


Section WithRuntime.
Context `{RT : Runtime}.

(** What [main] does once it holds the response body, from the call of
    [extract_reasoning_and_answer] to its end, on a standard output that
    takes every print; [report] below has the prints. *)
Definition after_response (resp_json : json) : result unit :=
  _ ← extract_reasoning_and_answer resp_json;
  usage ← py_get_default resp_json "usage" (JObj ∅);
  _ ← py_get resp_json "id";
  _ ← py_get resp_json "model";
  _ ← py_get resp_json "provider";
  _ ← py_get usage "prompt_tokens_details";
  _ ← py_get usage "completion_tokens_details";
  _ ← py_get resp_json "reasoning";
  has_choices ← py_get resp_json "choices";
  _ ← (if truthy has_choices then
         choices ← py_get_default resp_json "choices" (JArr [JObj ∅]);
         choice ← py_first choices;
         msg ← py_get_default choice "message" (JObj ∅);
         py_get msg "metadata"
       else Ok JNull);
  Ok tt.

(** The [try ... except requests.HTTPError] of [main] around an outcome
    of [call_openrouter]. *)
Definition except_http_error (outcome : result json) : result json :=
  match outcome with
  | Raise (HTTPError _) => Raise (SystemExit (ExitCode 1))
  | r => r
  end.

End WithRuntime.

(** A runtime whose [json.loads] reads every line as the value [v]. *)
Definition runtime_reading (v : json) : Runtime := {|
  py_repr := fun _ => "<object>";
  json_loads := fun _ => Some v;
  json_dumps := fun _ => "{}";
  path_str := fun p => p
|}.

(** Inputs on which the properties below are run. *)

Definition args_with_question : argv := {|
  arg_model := "openai/gpt-oss-20b:free";
  arg_question := Some "What is 13*17?";
  arg_from_jsonl := "data/s1k-1.1/train_mini.jsonl";
  arg_index := 0;
  arg_max_tokens := 16384;
  arg_temperature := float_0_7;
  arg_json_mode := false;
  arg_reasoning_effort := medium;
  arg_no_usage_details := false;
  arg_show_payload := false
|}.

Definition args_from_rows : argv := {|
  arg_model := "openai/gpt-oss-20b:free";
  arg_question := None;
  arg_from_jsonl := "rows.jsonl";
  arg_index := 1;
  arg_max_tokens := 16384;
  arg_temperature := float_0_7;
  arg_json_mode := false;
  arg_reasoning_effort := medium;
  arg_no_usage_details := false;
  arg_show_payload := false
|}.

Definition world_answering (resp : response) : world :=
  {| environ := {[ "OPENROUTER_API_KEY" := "sk" ]};
     fs := ∅;
     post := fun _ => Some resp |}.

Definition world_offline : world :=
  {| environ := {[ "OPENROUTER_API_KEY" := "sk" ]};
     fs := ∅;
     post := fun _ => None |}.

Definition world_with_rows : world :=
  {| environ := {[ "OPENROUTER_API_KEY" := "sk" ]};
     fs := {[ "rows.jsonl" := RegularFile ["{}"; "{}"] ]};
     post := fun _ => None |}.

Definition ok_with (body : option json) : response :=
  {| status_code := 200; json_body := body |}.

Definition server_error : response :=
  {| status_code := 503; json_body := None |}.

(** [{"choices": [{"message": {"content": "221", "role": "assistant"},
      "finish_reason": "stop"}, 7]}] *)
Definition answer_221 : gmap string json :=
  {[ "choices" :=
       JArr [ JObj {[ "message" := JObj {[ "content" := JStr "221";
                                           "role" := JStr "assistant" ]};
                      "finish_reason" := JStr "stop" ]};
              JInt 7 ] ]}.

(** [{"choices": [{"message": null}]}] *)
Definition null_message : gmap string json :=
  {[ "choices" := JArr [JObj {[ "message" := JNull ]}] ]}.

(** [{"usage": null}] *)
Definition null_usage : gmap string json := {[ "usage" := JNull ]}.

(** A row without [question]. *)
Definition row_without_question : gmap string json :=
  {[ "attempt" := JStr "4" ]}.

(** A row with padded fields, a second trajectory and another column. *)
Definition padded_row : gmap string json :=
  {[ "question" := JStr " 2+2? "; "attempt" := JInt 4;
     "thinking_trajectories" := JArr [JStr " Add. "; JStr "unused"];
     "source" := JStr "example" ]}.

End Report.

(** ** Surrounding whitespace *)

Module Whitespace.

(** Every character of [s] is whitespace. *)
Definition all_space (s : string) : bool :=
  forallb isspace (list_ascii_of_string s).

(** [s] is empty or starts with a character that is not whitespace. *)
Definition clean_start (s : string) : bool :=
  match s with
  | EmptyString => true
  | String c _ => negb (isspace c)
  end.

(** [r] is [s] with its surrounding whitespace removed: [s] is [r]
    between two runs of whitespace, and [r] neither starts nor ends with
    whitespace. *)
Definition stripped_of (s r : string) : Prop :=
  (exists pre post,
     s = pre ++ r ++ post /\ all_space pre = true /\ all_space post = true)
  /\ clean_start r = true
  /\ clean_start (rev_string r) = true.

End Whitespace.

(** ** The whole of [main]: argument parsing, prints and the call *)

Module Program.
Import Responses Shape Report.

(** What [ap.parse_args()] does with the command line: it returns the
    namespace, or prints a usage error and exits with status 2, or, on
    [-h] / [--help], prints the help and exits with status 0. *)
Inductive command_line : Type :=
| Parsed (args : argv)
| BadArguments
| HelpRequested.

Definition parse_args (cmd : command_line) : result argv :=
  match cmd with
  | Parsed args => Ok args
  | BadArguments => Raise (SystemExit (ExitCode 2))
  | HelpRequested => Raise (SystemExit (ExitCode 0))
  end.

(** The standard output and the serialiser used for it:
    [json.dumps(v, ensure_ascii=False, indent=2)], and whether the
    encoding of [sys.stdout] can encode a text. *)
Record console : Type := {
  dumps_indent : json -> string;
  stdout_encodes : string -> bool
}.

(** [print(text)]: a text the encoding of the standard output cannot
    encode raises [UnicodeEncodeError]. *)
Definition print (c : console) (text : string) : result unit :=
  if stdout_encodes c text then Ok tt else Raise UnicodeEncodeError.

(** [print(..., file=sys.stderr)]: the standard error stream replaces
    what it cannot encode (backslashreplace), and does not raise. *)
Definition eprint (text : string) : result unit := Ok tt.

(** A [float] that [json.dumps(..., allow_nan=False)] accepts. *)
Definition float_is_finite (f : spec_float) : bool :=
  match f with
  | S754_zero _ | S754_finite _ _ _ => true
  | S754_infinity _ | S754_nan => false
  end.

Section WithRuntime.
Context `{RT : Runtime}.

(** [call_openrouter] as the [requests] library runs it: [requests.post]
    serialises the [json=] payload with [allow_nan=False], so that a NaN
    or infinite temperature raises [InvalidJSONError] before anything is
    sent. *)
Definition call_openrouter_checked (send : request -> option response)
    (api_key model : string) (messages : json) (max_tokens : Z)
    (temperature : spec_float) (json_mode : bool) (request_timeout : Z)
    (referer title reasoning_effort : option string)
    (include_usage_details : bool) : result json :=
  if float_is_finite temperature then
    call_openrouter send api_key model messages max_tokens temperature
      json_mode request_timeout referer title reasoning_effort
      include_usage_details
  else Raise InvalidJSONError.

(** Lines 224 to 268 of [main], prints included. *)
Definition report (c : console) (args : argv) (resp_json : json) : result unit :=
  _ ← print c (LF ++ "=== Raw API Response ===");
  _ ← print c (dumps_indent c resp_json);
  '(thinking, attempt, meta) ← extract_reasoning_and_answer resp_json;
  _ ← print c (LF ++ "=== Parsed Fields ===");
  _ ← print c (dumps_indent c
         (JObj {[ "thinking_trajectory" := JStr thinking;
                  "attempt" := JStr attempt;
                  "meta" := meta ]}));
  usage ← py_get_default resp_json "usage" (JObj ∅);
  rid ← py_get resp_json "id";
  model ← py_get resp_json "model";
  _ ← print c (LF ++ "=== Usage / IDs ===");
  provider ← py_get resp_json "provider";
  prompt_details ← py_get usage "prompt_tokens_details";
  completion_details ← py_get usage "completion_tokens_details";
  _ ← print c (dumps_indent c
         (JObj {[ "id" := rid;
                  "model" := model;
                  "provider" := provider;
                  "usage" := usage;
                  "usage_details" :=
                    JObj {[ "prompt_tokens_details" := prompt_details;
                            "completion_tokens_details" := completion_details ]} ]}));
  top_level_reasoning ← py_get resp_json "reasoning";
  has_choices ← py_get resp_json "choices";
  choice_reasoning_meta ←
    (if truthy has_choices then
       choices ← py_get_default resp_json "choices" (JArr [JObj ∅]);
       choice ← py_first choices;
       msg ← py_get_default choice "message" (JObj ∅);
       py_get msg "metadata"
     else Ok JNull);
  _ ← (if truthy top_level_reasoning || truthy choice_reasoning_meta then
         _ ← print c (LF ++ "=== Provider-Reported Reasoning Meta (if any) ===");
         print c (dumps_indent c
           (JObj {[ "top_level_reasoning" := top_level_reasoning;
                    "choice_reasoning_meta" := choice_reasoning_meta ]}))
       else Ok tt);
  _ ← print c (LF ++ "=== Requested Settings (echo) ===");
  _ ← print c (dumps_indent c
         (JObj {[ "requested_reasoning_effort" :=
                    JStr (effort_str (arg_reasoning_effort args));
                  "requested_json_mode" := JBool (arg_json_mode args);
                  "requested_temperature" := JFloat (arg_temperature args);
                  "requested_max_tokens" := JInt (arg_max_tokens args) ]}));
  Ok tt.

(** [main], whole: [ap.parse_args()], the key, the question, the prints,
    the call inside [try ... except requests.HTTPError], the report. *)
Definition main_program (c : console) (w : world) (cmd : command_line)
    : result unit :=
  args ← parse_args cmd;
  let api_key := environ w !! "OPENROUTER_API_KEY" in
  if negb (truthy (of_opt_str api_key)) then
    _ ← eprint "Missing OPENROUTER_API_KEY in environment.";
    Raise (SystemExit (ExitCode 2))
  else
    ex ← load_question (fs w) (Some (arg_from_jsonl args)) (arg_index args)
           (arg_question args);
    q1 ← py_get ex "question";
    question ←
      (if truthy q1 then Ok q1
       else q2 ← py_get ex "prompt";
            Ok (py_or q2 (of_opt_str (arg_question args))));
    if negb (truthy question) then
      Raise (SystemExit (ExitMsg "Could not determine a question to send."))
    else
      let messages := build_messages (py_str question) in
      let referer := environ_or (environ w) "OPENROUTER_SITE_URL" "http://localhost" in
      let title := environ_or (environ w) "OPENROUTER_TITLE" "s1k-generation-test" in
      _ ← (if arg_show_payload args then
             _ ← print c "=== Request Payload ===";
             print c (dumps_indent c
               (JObj {[ "url" := JStr OPENROUTER_URL;
                        "model" := JStr (arg_model args);
                        "messages" := messages;
                        "temperature" := JFloat (arg_temperature args);
                        "max_tokens" := JInt (arg_max_tokens args);
                        "json_mode" := JBool (arg_json_mode args);
                        "reasoning_effort" :=
                          JStr (effort_str (arg_reasoning_effort args));
                        "usage_include" :=
                          JBool (negb (arg_no_usage_details args)) ]}))
           else Ok tt);
      _ ← print c "Sending request to OpenRouter ...";
      resp_json ←
        match
          call_openrouter_checked (post w) (default "" api_key) (arg_model args)
            messages (arg_max_tokens args) (arg_temperature args)
            (arg_json_mode args) 120 (Some referer) (Some title)
            (Some (effort_str (arg_reasoning_effort args)))
            (negb (arg_no_usage_details args))
        with
        | Raise (HTTPError status) =>
            _ ← eprint "Request failed with HTTP error:";
            Raise (SystemExit (ExitCode 1))
        | r => r
        end;
      report c args resp_json.

End WithRuntime.

(** A standard output that encodes everything. *)
Definition plain_console : console :=
  {| dumps_indent := fun _ => "{}"; stdout_encodes := fun _ => true |}.

(** A standard output that cannot encode the serialised JSON. *)
Definition ascii_console : console :=
  {| dumps_indent := fun _ => "{}";
     stdout_encodes := fun text => negb (String.eqb text "{}") |}.

(** [{"choices": [{"message": {"content": 0}}]}] *)
Definition zero_content : gmap string json :=
  {[ "choices" :=
       JArr [JObj {[ "message" := JObj {[ "content" := JInt 0 ]} ]}] ]}.

(** [{"choices": [{"message": "hi"}]}]: no reasoning source, a message
    that is a string. *)
Definition string_message : gmap string json :=
  {[ "choices" := JArr [JObj {[ "message" := JStr "hi" ]}] ]}.

End Program.

(** * Properties *)

Section ExtractionProperties.
Import Responses Shape.
Context `{RT : Runtime}.

Lemma strip_empty : strip "" = "".
Proof. reflexivity. Qed.

Lemma truthy_JStr (s : string) : truthy (JStr s) = str_nonempty s.
Proof. reflexivity. Qed.

Lemma py_or_false (a b : json) : truthy a = false -> py_or a b = b.
Proof. intros Ha. unfold py_or. now rewrite Ha. Qed.

Lemma py_or_true (a b : json) : truthy a = true -> py_or a b = a.
Proof. intros Ha. unfold py_or. now rewrite Ha. Qed.

(** A false value of the expected kind, or no value, reads as the empty
    dict after [... or {}]. *)
Lemma message_or_empty (o : option json) :
  absent_or is_dict o = true ->
  py_or (default (JObj ∅) o) (JObj ∅)
  = JObj (match o with Some (JObj msg) => msg | _ => ∅ end).
Proof.
  destruct o as [v|]; cbn; [|reflexivity].
  intros Hv. unfold py_or.
  destruct (truthy v) eqn:Ht; cbn in Hv.
  - destruct v; try discriminate. reflexivity.
  - destruct v; try reflexivity.
    cbn in Ht. apply negb_false_iff, bool_decide_eq_true in Ht. now subst.
Qed.

(** On a well-shaped field the join is the stripped join of its
    fragments. *)
Lemma join_of_shape (o : option json) :
  absent_or is_list o = true ->
  _join_reasoning_details (default JNull o)
  = Ok (strip (join LF (fragments o))).
Proof.
  destruct o as [v|]; cbn; [|reflexivity].
  intros Hv. unfold _join_reasoning_details.
  destruct (truthy v) eqn:Ht; cbn in Hv |- *.
  - destruct v; try discriminate. reflexivity.
  - destruct v; try reflexivity.
    destruct l; [reflexivity | discriminate].
Qed.

Lemma extract_without_choices (m : gmap string json) :
  truthy (default JNull (m !! "choices")) = false ->
  extract_reasoning_and_answer (JObj m) = Ok ("", "", JObj ∅).
Proof.
  intros Hc. unfold extract_reasoning_and_answer.
  cbn -[lookup insert singletonM empty py_or].
  now rewrite (py_or_false _ _ Hc).
Qed.

Ltac extract_step :=
  cbn -[lookup insert singletonM empty strip join _join_reasoning_details py_or].

(** With a first choice of the expected shape, the extraction is the
    choice among the three sources followed by the conversions to [str]. *)
Lemma extract_first_choice (m : gmap string json) :
  has_first_choice m = true ->
  choice_shape m = true ->
  exists content meta,
    extract_reasoning_and_answer (JObj m)
    = (reasoning ←
         (if truthy (message_reasoning (first_message m))
          then Ok (message_reasoning (first_message m))
          else
            j1 ← _join_reasoning_details
                   (default JNull (first_message m !! "reasoning_details"));
            if str_nonempty j1 then Ok (JStr j1)
            else
              j2 ← _join_reasoning_details
                     (default JNull (m !! "reasoning_details"));
              Ok (py_or (JStr j2) (JStr "")));
       Ok (py_str (py_or reasoning (JStr "")), content, meta)).
Proof.
  intros Hc Hs.
  unfold choice_shape, first_choice_message in Hs.
  unfold first_message, message_reasoning, has_first_choice in *.
  destruct (m !! "choices") as [[| | | | |[|[| | | | | |choice] rest]|]|] eqn:Hm;
    try discriminate.
  apply andb_prop in Hs as [_ Hmsg].
  unfold extract_reasoning_and_answer. extract_step. rewrite Hm.
  extract_step. rewrite (py_or_true (JArr _)) by reflexivity.
  extract_step. rewrite (message_or_empty (choice !! "message")) by assumption.
  set (msg := match choice !! "message" with
              | Some (JObj msg) => msg
              | _ => ∅
              end) in *.
  extract_step.
  eexists _, _. reflexivity.
Qed.

(** On a well-shaped response, the trace is the first true value among
    the three sources, joins stripped. *)
Lemma extract_on_first_choice (m : gmap string json) :
  has_first_choice m = true ->
  response_shape m = true ->
  exists content meta,
    extract_reasoning_and_answer (JObj m)
    = Ok (stripped_reasoning_trace m, content, meta).
Proof.
  intros Hc Hs. unfold response_shape in Hs.
  apply andb_prop in Hs as [Hs Htop]. apply andb_prop in Hs as [Hs Hdet].
  destruct (extract_first_choice m Hc Hs) as (content & meta & ->).
  exists content, meta.
  rewrite (join_of_shape (first_message m !! "reasoning_details")) by assumption.
  rewrite (join_of_shape (m !! "reasoning_details")) by assumption.
  unfold stripped_reasoning_trace, first_true.
  set (r := message_reasoning (first_message m)).
  set (j1 := strip (join LF (fragments (first_message m !! "reasoning_details")))).
  set (j2 := strip (join LF (fragments (m !! "reasoning_details")))).
  cbn -[strip join py_or]. unfold py_or.
  destruct (truthy r) eqn:Hr; cbn; [now rewrite Hr|].
  destruct (str_nonempty j1) eqn:Hj1; cbn; [now rewrite Hj1|].
  destruct (str_nonempty j2) eqn:Hj2; cbn; rewrite ?Hj2; cbn; now rewrite ?Hj2.
Qed.

(** A true [message.reasoning] is returned, converted by [str], without
    the [reasoning_details] being looked at. *)
Lemma extract_message_reasoning (m : gmap string json) :
  has_first_choice m = true ->
  choice_shape m = true ->
  truthy (message_reasoning (first_message m)) = true ->
  exists content meta,
    extract_reasoning_and_answer (JObj m)
    = Ok (py_str (message_reasoning (first_message m)), content, meta).
Proof.
  intros Hc Hs Hr.
  destruct (extract_first_choice m Hc Hs) as (content & meta & ->).
  exists content, meta. rewrite Hr. cbn [mbind result_bind].
  now rewrite (py_or_true _ _ Hr).
Qed.

Lemma text_fragment_has_text (d : json) :
  has_text d = false -> text_fragment d = None.
Proof.
  destruct d as [| | | | | |entry]; try reflexivity.
  cbn. destruct (entry !! "text") as [[| | | |t| |]|]; try reflexivity.
  now intros ->.
Qed.

Lemma join_list (l : list json) :
  _join_reasoning_details (JArr l)
  = Ok (strip (join LF (omap text_fragment l))).
Proof. destruct l; reflexivity. Qed.

Lemma join_skips (l1 l2 : list json) (d : json) :
  has_text d = false ->
  _join_reasoning_details (JArr (l1 ++ d :: l2))
  = _join_reasoning_details (JArr (l1 ++ l2)).
Proof.
  intros Hd. rewrite !join_list, !omap_app.
  change (omap text_fragment (d :: l2))
    with (match text_fragment d with
          | Some t => t :: omap text_fragment l2
          | None => omap text_fragment l2
          end).
  now rewrite (text_fragment_has_text d Hd).
Qed.

(** C1 (amended): for every response with a first choice (an object
    whose [message] is absent, false or an object) whose
    [reasoning_details] fields are absent, false or lists, the reasoning
    trace returned by [extract_reasoning_and_answer] is the first true
    (non-empty) value in the order: the first choice's
    [message.reasoning], then the whitespace-stripped newline-join of the
    text fragments of [message.reasoning_details], then the stripped
    newline-join of the fragments of the top-level [reasoning_details];
    and a non-empty string [message.reasoning] is returned as it is,
    whatever the [reasoning_details] hold. *)
Theorem reasoning_trace_first_true_source (m : gmap string json) :
  has_first_choice m = true ->
  choice_shape m = true ->
  (response_shape m = true ->
   exists content meta,
     extract_reasoning_and_answer (JObj m)
     = Ok (stripped_reasoning_trace m, content, meta))
  /\ (forall s, first_message m !! "reasoning" = Some (JStr s) ->
                s <> "" ->
                exists content meta,
                  extract_reasoning_and_answer (JObj m)
                  = Ok (s, content, meta)).
Proof.
  intros Hc Hs. split.
  - intros Hshape. exact (extract_on_first_choice m Hc Hshape).
  - intros s Hr Hne.
    destruct (extract_message_reasoning m Hc Hs) as (content & meta & He).
    + unfold message_reasoning. rewrite Hr. now destruct s.
    + exists content, meta. rewrite He. unfold message_reasoning. now rewrite Hr.
Qed.

(** C2 (amended): for every response whose [choices] is absent, false
    or a list starting with an object whose [message] is absent, false or
    an object, and in which none of [message.reasoning],
    [message.reasoning_details] and the top-level [reasoning_details] is
    present, the reasoning trace returned by
    [extract_reasoning_and_answer] is the empty string. *)
Theorem no_reasoning_source_empty_trace (m : gmap string json) :
  choice_shape m = true ->
  first_message m !! "reasoning" = None ->
  first_message m !! "reasoning_details" = None ->
  m !! "reasoning_details" = None ->
  exists content meta,
    extract_reasoning_and_answer (JObj m) = Ok ("", content, meta).
Proof.
  intros Hs Hr Hd Htop.
  destruct (has_first_choice m) eqn:Hc.
  - destruct (extract_on_first_choice m Hc) as (content & meta & He).
    + unfold response_shape. now rewrite Hs, Hd, Htop.
    + exists content, meta. rewrite He.
      unfold stripped_reasoning_trace, message_reasoning.
      now rewrite Hr, Hd, Htop.
  - exists "", (JObj ∅). apply extract_without_choices.
    unfold choice_shape in Hs. rewrite Hc, orb_false_r in Hs.
    apply andb_prop in Hs as [Hs _].
    destruct (m !! "choices") as [v|]; [|reflexivity].
    cbn in Hs |- *. rewrite orb_false_r in Hs. now apply negb_true_iff.
Qed.

(** C9 (amended): [extract_reasoning_and_answer] returns ("", "", {}) when
    the [choices] key is absent, [None] or an empty list; it returns,
    without raising, on every well-shaped response; and when joining a
    [reasoning_details] list it skips every entry that is not a dict or
    has no non-empty string [text]. *)
Theorem extract_returns_on_shaped_responses :
  (forall m : gmap string json,
     m !! "choices" = None \/ m !! "choices" = Some JNull
     \/ m !! "choices" = Some (JArr []) ->
     extract_reasoning_and_answer (JObj m) = Ok ("", "", JObj ∅))
  /\ (forall m : gmap string json,
        response_shape m = true ->
        is_ok (extract_reasoning_and_answer (JObj m)) = true)
  /\ (forall (l1 l2 : list json) (d : json),
        has_text d = false ->
        _join_reasoning_details (JArr (l1 ++ d :: l2))
        = _join_reasoning_details (JArr (l1 ++ l2))).
Proof.
  split; [|split].
  - intros m Hc. apply extract_without_choices.
    destruct Hc as [-> | [-> | ->]]; reflexivity.
  - intros m Hs. destruct (has_first_choice m) eqn:Hc.
    + destruct (extract_on_first_choice m Hc Hs) as (content & meta & He).
      now rewrite He.
    + rewrite extract_without_choices; [reflexivity|].
      unfold response_shape, choice_shape in Hs. rewrite Hc, orb_false_r in Hs.
      repeat (apply andb_prop in Hs as [Hs _]).
      destruct (m !! "choices") as [v|]; [|reflexivity].
      cbn in Hs |- *. rewrite orb_false_r in Hs. now apply negb_true_iff.
  - intros l1 l2 d. apply join_skips.
Qed.

End ExtractionProperties.

(** ** Stripping *)

Section StripProperties.

Lemma string_of_list_ascii_app (l1 l2 : list ascii) :
  string_of_list_ascii (l1 ++ l2)
  = string_of_list_ascii l1 ++ string_of_list_ascii l2.
Proof.
  induction l1 as [|c l1 IH]; [reflexivity|].
  simpl. rewrite IH. reflexivity.
Qed.

Lemma list_ascii_of_string_app (s1 s2 : string) :
  list_ascii_of_string (s1 ++ s2)
  = (list_ascii_of_string s1 ++ list_ascii_of_string s2)%list.
Proof.
  induction s1 as [|c s1 IH]; [reflexivity|].
  change (String c s1 ++ s2) with (String c (s1 ++ s2)).
  simpl. rewrite IH. reflexivity.
Qed.

Lemma rev_string_cons (c : ascii) (s : string) :
  rev_string (String c s) = rev_string s ++ String c "".
Proof.
  unfold rev_string. cbn [list_ascii_of_string].
  change (rev (c :: list_ascii_of_string s))
    with (rev (list_ascii_of_string s) ++ [c])%list.
  now rewrite string_of_list_ascii_app.
Qed.

Lemma rev_string_app (s1 s2 : string) :
  rev_string (s1 ++ s2) = rev_string s2 ++ rev_string s1.
Proof.
  unfold rev_string.
  now rewrite list_ascii_of_string_app, rev_app_distr, string_of_list_ascii_app.
Qed.

Lemma rev_string_involutive (s : string) : rev_string (rev_string s) = s.
Proof.
  unfold rev_string.
  now rewrite list_ascii_of_string_of_list_ascii, rev_involutive,
    string_of_list_ascii_of_string.
Qed.

(** A string that does not start with whitespace is left alone by
    [lstrip]. *)
Lemma lstrip_fixed (c : ascii) (s : string) :
  isspace c = false -> lstrip (String c s) = String c s.
Proof. intros Hc. cbn [lstrip]. now rewrite Hc. Qed.

Lemma lstrip_cases (s : string) :
  lstrip s = "" \/ exists c s', lstrip s = String c s' /\ isspace c = false.
Proof.
  induction s as [|c s IH]; [now left|].
  cbn [lstrip]. destruct (isspace c) eqn:Hc; [exact IH|].
  right. now exists c, s.
Qed.

Lemma lstrip_app_last (s : string) (c : ascii) :
  isspace c = false ->
  lstrip (s ++ String c "") = lstrip s ++ String c "".
Proof.
  intros Hc. induction s as [|d s IH].
  - exact (lstrip_fixed c "" Hc).
  - change (String d s ++ String c "") with (String d (s ++ String c "")).
    cbn [lstrip]. destruct (isspace d); [exact IH | reflexivity].
Qed.

Lemma rstrip_cons (c : ascii) (s : string) :
  isspace c = false -> rstrip (String c s) = String c (rstrip s).
Proof.
  intros Hc. unfold rstrip.
  rewrite rev_string_cons, (lstrip_app_last _ c Hc), rev_string_app.
  reflexivity.
Qed.

Lemma rstrip_idempotent (s : string) : rstrip (rstrip s) = rstrip s.
Proof.
  unfold rstrip. rewrite rev_string_involutive. f_equal.
  destruct (lstrip_cases (rev_string s)) as [-> | (c & s' & -> & Hc)];
    [reflexivity | now apply lstrip_fixed].
Qed.

Lemma strip_idempotent (s : string) : strip (strip s) = strip s.
Proof.
  unfold strip.
  destruct (lstrip_cases s) as [-> | (c & s' & -> & Hc)]; [reflexivity|].
  rewrite (rstrip_cons c s' Hc), (lstrip_fixed c _ Hc), <- (rstrip_cons c s' Hc).
  apply rstrip_idempotent.
Qed.

(** A stripped string neither starts nor ends with whitespace. *)
Lemma strip_starts_clean (s : string) (c : ascii) (s' : string) :
  strip s = String c s' -> isspace c = false.
Proof.
  unfold strip.
  destruct (lstrip_cases s) as [-> | (d & t & -> & Hd)]; [discriminate|].
  rewrite (rstrip_cons d t Hd). now intros [= <- _].
Qed.

Lemma strip_ends_clean (s : string) (c : ascii) (s' : string) :
  rev_string (strip s) = String c s' -> isspace c = false.
Proof.
  unfold strip, rstrip. rewrite rev_string_involutive.
  destruct (lstrip_cases (rev_string (lstrip s))) as [-> | (d & t & -> & Hd)];
    [discriminate | now intros [= <- _]].
Qed.

End StripProperties.

Section StripSpecification.
Import Whitespace.

Lemma lstrip_decompose (s : string) :
  exists pre, s = pre ++ lstrip s /\ all_space pre = true.
Proof.
  induction s as [|c s (pre & Hs & Hpre)]; [now exists ""|].
  cbn [lstrip]. destruct (isspace c) eqn:Hc.
  - exists (String c pre). split.
    + change (String c pre ++ lstrip s) with (String c (pre ++ lstrip s)).
      now rewrite <- Hs.
    + unfold all_space in *. cbn. now rewrite Hc.
  - now exists "".
Qed.

Lemma all_space_rev_string (s : string) :
  all_space s = true -> all_space (rev_string s) = true.
Proof.
  unfold all_space, rev_string.
  rewrite list_ascii_of_string_of_list_ascii, !forallb_forall.
  intros Hs c Hc. apply Hs. now apply in_rev.
Qed.

Lemma rstrip_decompose (s : string) :
  exists post, s = rstrip s ++ post /\ all_space post = true.
Proof.
  destruct (lstrip_decompose (rev_string s)) as (pre & Hs & Hpre).
  exists (rev_string pre). split; [|now apply all_space_rev_string].
  unfold rstrip. rewrite <- rev_string_app, <- Hs.
  now rewrite rev_string_involutive.
Qed.

Lemma clean_start_strip (s : string) : clean_start (strip s) = true.
Proof.
  destruct (strip s) as [|c s'] eqn:Hs; [reflexivity|].
  cbn. now rewrite (strip_starts_clean s c s' Hs).
Qed.

Lemma clean_end_strip (s : string) : clean_start (rev_string (strip s)) = true.
Proof.
  destruct (rev_string (strip s)) as [|c s'] eqn:Hs; [reflexivity|].
  cbn. now rewrite (strip_ends_clean s c s' Hs).
Qed.

(** [strip] removes the surrounding whitespace, and only it. *)
Lemma strip_is_stripped_of (s : string) : stripped_of s (strip s).
Proof.
  split; [|split; [apply clean_start_strip | apply clean_end_strip]].
  destruct (lstrip_decompose s) as (pre & Hs & Hpre).
  destruct (rstrip_decompose (lstrip s)) as (post & Ht & Hpost).
  exists pre, post. split; [|now split].
  unfold strip. now rewrite <- Ht.
Qed.

Lemma lstrip_all_space_app (pre s : string) :
  all_space pre = true -> lstrip (pre ++ s) = lstrip s.
Proof.
  unfold all_space. induction pre as [|c pre IH]; [reflexivity|].
  cbn [list_ascii_of_string forallb]. intros Hc.
  apply andb_prop in Hc as [Hc Hpre].
  change (String c pre ++ s) with (String c (pre ++ s)).
  cbn [lstrip]. rewrite Hc. now apply IH.
Qed.

Lemma lstrip_clean_start (s : string) : clean_start s = true -> lstrip s = s.
Proof.
  destruct s as [|c s]; [reflexivity|]. cbn. intros Hc.
  apply negb_true_iff in Hc. now rewrite Hc.
Qed.

Lemma append_empty_r (s : string) : s ++ "" = s.
Proof.
  induction s as [|c s IH]; [reflexivity|].
  change (String c s ++ "") with (String c (s ++ "")). now rewrite IH.
Qed.

(** What is stripped of [s] is [strip s] and nothing else. *)
Lemma stripped_of_unique (s r : string) : stripped_of s r -> r = strip s.
Proof.
  intros ((pre & post & -> & Hpre & Hpost) & Hstart & Hend).
  unfold strip. rewrite (lstrip_all_space_app pre _ Hpre).
  assert (Hr : rstrip (r ++ post) = r).
  { unfold rstrip. rewrite rev_string_app.
    rewrite (lstrip_all_space_app _ _ (all_space_rev_string post Hpost)).
    rewrite (lstrip_clean_start _ Hend). apply rev_string_involutive. }
  destruct r as [|c r].
  - change ("" ++ post) with post.
    rewrite <- (append_empty_r post) at 1.
    now rewrite (lstrip_all_space_app post "" Hpost).
  - rewrite (lstrip_clean_start (String c r ++ post)); [now rewrite Hr|].
    exact Hstart.
Qed.

End StripSpecification.

Section ConverterProperties.
Import PrepS1k Shape Whitespace.
Context `{RT : Runtime}.

(** What the loop body writes for a dataset row. *)
Lemma row_record_of_dataset_row (ex : gmap string json) :
  dataset_row ex = true ->
  exists q a,
    ex !! "question" = Some (JStr q) /\ ex !! "attempt" = Some a
    /\ row_record ex
       = Ok (JObj {[ "messages" :=
                       JArr [ message "user" (strip q);
                              message "think" (strip (first_trajectory ex));
                              message "answer" (strip (py_str a)) ] ]}).
Proof.
  unfold dataset_row, row_record, first_trajectory, py_item.
  intros Hrow.
  apply andb_prop in Hrow as [Hrow Ht]. apply andb_prop in Hrow as [Hq Ha].
  destruct (ex !! "question") as [[| | | |q| |]|]; try discriminate.
  destruct (ex !! "attempt") as [a|]; try discriminate.
  exists q, a. split; [reflexivity|]. split; [reflexivity|].
  cbn -[lookup insert singletonM empty strip py_or message].
  destruct (ex !! "thinking_trajectories") as [[| | | | |l|]|];
    try discriminate; try reflexivity.
  destruct l as [|[| | | |t| |] l]; try discriminate; reflexivity.
Qed.

Lemma think_of_record (q trace ans : string) :
  content_of_role "think"
    (JObj {[ "messages" :=
               JArr [ message "user" q; message "think" trace;
                      message "answer" ans ] ]})
  = Some trace.
Proof. reflexivity. Qed.



(** C3: for every dataset row whose [thinking_trajectories] is a
    non-empty list starting with the string [t], the record written has
    its "think" message content equal to [t] with its surrounding
    whitespace stripped: [t] is that content between two runs of
    whitespace, and the content neither starts nor ends with
    whitespace. *)
Theorem think_is_first_trajectory_stripped
    (ex : gmap string json) (t : string) (rest : list json) :
  dataset_row ex = true ->
  ex !! "thinking_trajectories" = Some (JArr (JStr t :: rest)) ->
  exists obj think,
    row_record ex = Ok obj
    /\ content_of_role "think" obj = Some think
    /\ stripped_of t think.
Proof.
  intros Hrow Ht.
  destruct (row_record_of_dataset_row ex Hrow) as (q & a & _ & _ & Hrec).
  eexists _, (strip t). split; [exact Hrec|].
  split; [|apply strip_is_stripped_of].
  rewrite think_of_record. unfold first_trajectory. now rewrite Ht.
Qed.

(** C4: for every dataset row whose [thinking_trajectories] is absent,
    [None] or an empty list, the record written has its "think" message
    content equal to the empty string. *)
Theorem think_is_empty_without_trajectory (ex : gmap string json) :
  dataset_row ex = true ->
  ex !! "thinking_trajectories" = None
  \/ ex !! "thinking_trajectories" = Some JNull
  \/ ex !! "thinking_trajectories" = Some (JArr []) ->
  exists obj,
    row_record ex = Ok obj /\ content_of_role "think" obj = Some "".
Proof.
  intros Hrow Ht.
  destruct (row_record_of_dataset_row ex Hrow) as (q & a & _ & _ & Hrec).
  eexists. split; [exact Hrec|].
  rewrite think_of_record. unfold first_trajectory.
  destruct Ht as [-> | [-> | ->]]; reflexivity.
Qed.


End ConverterProperties.

Section ClientProperties.
Import Responses Shape.
Context `{RT : Runtime}.

(** The loop finds no line when the index lies outside the lines left. *)
Lemma find_line_out_of_range (lines : list string) (i index : Z) :
  index < i \/ i + Z.of_nat (length lines) <= index ->
  find_line lines i index = None.
Proof.
  revert i. induction lines as [|line lines IH]; intros i Hi; [reflexivity|].
  cbn [find_line]. cbn [length] in Hi.
  destruct (Z.eqb_spec i index) as [->|Hne]; [lia|].
  apply IH. lia.
Qed.

Lemma falsy_opt_str (o : option string) :
  o = None \/ o = Some "" -> truthy (of_opt_str o) = false.
Proof. now intros [-> | ->]. Qed.

Lemma truthy_nonempty (s : string) : s <> "" -> truthy (JStr s) = true.
Proof. destruct s; [contradiction|reflexivity]. Qed.

(** C10: [load_question] gives the explicit question priority over the
    file: a non-empty [fallback_question] is returned as
    [{"question": fallback_question}] whatever the files and the path are;
    with an empty or [None] [fallback_question] and a [None] or empty
    [from_jsonl] the built-in default question is returned. *)
Theorem load_question_prefers_explicit_question :
  (forall (files : gmap string fs_entry) (from_jsonl : option string)
          (index : Z) (q : string),
     q <> "" ->
     load_question files from_jsonl index (Some q)
     = Ok (JObj {[ "question" := JStr q ]}))
  /\ (forall (files : gmap string fs_entry) (from_jsonl : option string)
             (index : Z) (fallback_question : option string),
        fallback_question = None \/ fallback_question = Some "" ->
        from_jsonl = None \/ from_jsonl = Some "" ->
        load_question files from_jsonl index fallback_question
        = Ok (JObj {[ "question" :=
              JStr "What is the sum of the first 10 positive integers?" ]})).
Proof.
  split.
  - intros files from_jsonl index q Hq. unfold load_question.
    cbn [of_opt_str]. now rewrite (truthy_nonempty q Hq).
  - intros files from_jsonl index fallback Hf Hj. unfold load_question.
    now rewrite (falsy_opt_str _ Hf), (falsy_opt_str _ Hj).
Qed.

(** C8: when the question is taken from a JSONL source (no explicit
    question, a non-empty path), a missing file and a row index that
    matches no line of the file, negative ones included, raise
    [SystemExit] with a message instead of returning a question. *)
Theorem load_question_exits_on_missing_row
    (files : gmap string fs_entry) (path : string) (index : Z)
    (fallback_question : option string) :
  fallback_question = None \/ fallback_question = Some "" ->
  path <> "" ->
  (files !! path = None ->
   load_question files (Some path) index fallback_question
   = Raise (SystemExit (ExitMsg ("JSONL not found: " ++ path_str path))))
  /\ (forall lines,
        files !! path = Some (RegularFile lines) ->
        index < 0 \/ Z.of_nat (length lines) <= index ->
        load_question files (Some path) index fallback_question
        = Raise (SystemExit (ExitMsg
            ("Index " ++ str_of_int index ++ " out of range for "
             ++ path_str path)))).
Proof.
  intros Hf Hp. unfold load_question.
  rewrite (falsy_opt_str _ Hf). cbn [of_opt_str default from_option id].
  rewrite (truthy_nonempty path Hp). cbn [negb].
  split.
  - now intros ->.
  - intros lines -> Hi. now rewrite find_line_out_of_range by lia.
Qed.

(** What [call_openrouter] does with the answer [resp] of the server. *)
Lemma call_openrouter_answer (send : request -> option response)
    (resp : response) (api_key model : string) (messages : json)
    (max_tokens : Z) (temperature : spec_float) (json_mode : bool)
    (request_timeout : Z) (referer title reasoning_effort : option string)
    (include_usage_details : bool) :
  (forall req, send req = Some resp) ->
  call_openrouter send api_key model messages max_tokens temperature
    json_mode request_timeout referer title reasoning_effort
    include_usage_details
  = (_ ← raise_for_status resp; response_json resp).
Proof. intros Hsend. unfold call_openrouter. now rewrite Hsend. Qed.

(** C6 (amended): for every HTTP response with a 4xx or 5xx status code
    [call_openrouter] raises an HTTP error instead of returning a result;
    for every response with another status code, every 2xx one included,
    it returns what [resp.json()] yields: the parsed JSON body when the
    body is valid JSON. *)
Theorem call_openrouter_raises_on_error_status
    (send : request -> option response)
    (resp : response) (api_key model : string) (messages : json)
    (max_tokens : Z) (temperature : spec_float) (json_mode : bool)
    (request_timeout : Z) (referer title reasoning_effort : option string)
    (include_usage_details : bool) :
  (forall req, send req = Some resp) ->
  (400 <= status_code resp < 600 ->
   call_openrouter send api_key model messages max_tokens temperature
     json_mode request_timeout referer title reasoning_effort
     include_usage_details
   = Raise (HTTPError (status_code resp)))
  /\ (~ 400 <= status_code resp < 600 ->
      call_openrouter send api_key model messages max_tokens temperature
        json_mode request_timeout referer title reasoning_effort
        include_usage_details
      = response_json resp)
  /\ (200 <= status_code resp < 300 ->
      forall j, json_body resp = Some j ->
      call_openrouter send api_key model messages max_tokens temperature
        json_mode request_timeout referer title reasoning_effort
        include_usage_details
      = Ok j).
Proof.
  intros Hsend.
  rewrite (call_openrouter_answer send resp) by exact Hsend.
  unfold raise_for_status, response_json.
  split; [|split].
  - intros Hs.
    replace (400 <=? status_code resp) with true by (symmetry; apply Z.leb_le; lia).
    replace (status_code resp <? 600) with true by (symmetry; apply Z.ltb_lt; lia).
    reflexivity.
  - intros Hs.
    destruct (Z.leb_spec 400 (status_code resp));
      destruct (Z.ltb_spec (status_code resp) 600); try reflexivity; lia.
  - intros Hs j Hj.
    replace (status_code resp <? 600) with true by (symmetry; apply Z.ltb_lt; lia).
    replace (400 <=? status_code resp) with false by (symmetry; apply Z.leb_gt; lia).
    cbn. now rewrite Hj.
Qed.

Lemma call_openrouter_error_status (send : request -> option response)
    (resp : response) (api_key model : string) (messages : json)
    (max_tokens : Z) (temperature : spec_float) (json_mode : bool)
    (request_timeout : Z) (referer title reasoning_effort : option string)
    (include_usage_details : bool) :
  (forall req, send req = Some resp) ->
  400 <= status_code resp < 600 ->
  call_openrouter send api_key model messages max_tokens temperature
    json_mode request_timeout referer title reasoning_effort
    include_usage_details
  = Raise (HTTPError (status_code resp)).
Proof.
  intros Hsend Hs.
  rewrite (call_openrouter_answer send resp) by exact Hsend.
  unfold raise_for_status.
  replace (400 <=? status_code resp) with true by (symmetry; apply Z.leb_le; lia).
  replace (status_code resp <? 600) with true by (symmetry; apply Z.ltb_lt; lia).
  reflexivity.
Qed.

(** *** Failures of [main] *)

Lemma fails_with_1_bind {A B : Type} (r : result A) (k : A -> result B) :
  fails_with_1 r = true ->
  (forall a, fails_with_1 (k a) = true) ->
  fails_with_1 (r ≫= k) = true.
Proof. intros Hr Hk. destruct r as [a|e]; [apply Hk | exact Hr]. Qed.

Lemma fails_with_1_get (d : json) (k : string) (dflt : json) :
  fails_with_1 (py_get_default d k dflt) = true.
Proof. now destruct d. Qed.

Lemma fails_with_1_first (v : json) : fails_with_1 (py_first v) = true.
Proof. destruct v as [| | | |[|c s]|[|x l]|]; reflexivity. Qed.

Lemma fails_with_1_join (details : json) :
  fails_with_1 (_join_reasoning_details details) = true.
Proof.
  unfold _join_reasoning_details.
  destruct (truthy details); [|reflexivity]. now destruct details.
Qed.

Ltac fails_with_1_step :=
  first
    [ reflexivity
    | apply fails_with_1_get
    | apply fails_with_1_first
    | apply fails_with_1_join
    | apply fails_with_1_bind; [|intros ?]
    | match goal with
      | |- fails_with_1 (if ?b then _ else _) = true => destruct b
      end ].

Lemma fails_with_1_extract (resp_json : json) :
  fails_with_1 (extract_reasoning_and_answer resp_json) = true.
Proof.
  unfold extract_reasoning_and_answer, py_get. repeat fails_with_1_step.
Qed.

Lemma fails_with_1_find_line (lines : list string) (i index : Z) (ex : result json) :
  find_line lines i index = Some ex -> fails_with_1 ex = true.
Proof.
  revert i. induction lines as [|line lines IH]; intros i; [discriminate|].
  cbn [find_line]. destruct (i =? index); [|apply IH].
  intros [= <-]. now destruct (json_loads line).
Qed.

Lemma fails_with_1_load_question (files : gmap string fs_entry)
    (from_jsonl : option string) (index : Z) (fallback_question : option string) :
  fails_with_1 (load_question files from_jsonl index fallback_question) = true.
Proof.
  unfold load_question.
  destruct (truthy (of_opt_str fallback_question)); [reflexivity|].
  destruct (negb (truthy (of_opt_str from_jsonl))); [reflexivity|].
  destruct (files !! default "" from_jsonl) as [[lines|]|]; try reflexivity.
  destruct (find_line lines 0 index) eqn:Hl; [|reflexivity].
  eapply fails_with_1_find_line, Hl.
Qed.

Lemma fails_with_1_call (send : request -> option response)
    (api_key model : string) (messages : json)
    (max_tokens : Z) (temperature : spec_float) (json_mode : bool)
    (request_timeout : Z) (referer title reasoning_effort : option string)
    (include_usage_details : bool) :
  fails_with_1
    match
      call_openrouter send api_key model messages max_tokens temperature
        json_mode request_timeout referer title reasoning_effort
        include_usage_details
    with
    | Raise (HTTPError _) => Raise (SystemExit (ExitCode 1))
    | r => r
    end = true.
Proof.
  unfold call_openrouter.
  match goal with |- context [send ?req] => destruct (send req) as [resp|] end;
    [|reflexivity].
  unfold raise_for_status, response_json.
  destruct ((400 <=? status_code resp) && (status_code resp <? 600));
    [reflexivity|].
  cbn. now destruct (json_body resp).
Qed.

Lemma fails_with_1_main (w : world) (args : argv) :
  api_key_set w = true -> fails_with_1 (main w args) = true.
Proof.
  unfold api_key_set, main. intros ->. cbn [negb].
  apply fails_with_1_bind; [apply fails_with_1_load_question | intros ex].
  unfold py_get.
  do 2 (apply fails_with_1_bind; [repeat fails_with_1_step | intros ?]).
  match goal with
  | |- fails_with_1 (if ?b then _ else _) = true => destruct b
  end; [reflexivity|].
  apply fails_with_1_bind; [apply fails_with_1_call | intros resp_json].
  apply fails_with_1_bind; [apply fails_with_1_extract | intros ?].
  repeat fails_with_1_step.
Qed.

Lemma exit_status_of_fails_with_1 (r : result unit) :
  fails_with_1 r = true -> exit_status r = if is_ok r then 0 else 1.
Proof.
  destruct r as [u|[[n|msg]| | | | | | | | | |]]; try reflexivity.
  cbn. intros Hn. now apply Z.eqb_eq.
Qed.

(** With an HTTP error for answer, [main] does not complete. *)
Lemma main_http_error_not_ok (w : world) (args : argv) (resp : response) :
  (forall req, post w req = Some resp) ->
  400 <= status_code resp < 600 ->
  is_ok (main w args) = false.
Proof.
  intros Hpost Hs. unfold main.
  destruct (negb (truthy (of_opt_str (environ w !! "OPENROUTER_API_KEY"))));
    [reflexivity|].
  destruct (load_question _ _ _ _) as [ex|e]; [|reflexivity].
  cbn [mbind result_bind].
  destruct (py_get ex "question") as [q1|e]; [|reflexivity].
  cbn [mbind result_bind].
  match goal with
  | |- is_ok (mbind _ ?r) = false => destruct r as [question|e]; [|reflexivity]
  end.
  cbn [mbind result_bind].
  destruct (negb (truthy question)); [reflexivity|].
  now rewrite (call_openrouter_error_status (post w) resp) by assumption.
Qed.

(** The exit status of [main]: 2 without the key; with the key, 0 when
    it completes and 1 when it does not, as on an HTTP error or a missing
    JSONL file. *)
Lemma main_exit_status (w : world) (args : argv) :
  (api_key_set w = false -> exit_status (main w args) = 2)
  /\ (api_key_set w = true ->
      exit_status (main w args) = if is_ok (main w args) then 0 else 1)
  /\ (api_key_set w = true ->
      forall resp,
        (forall req, post w req = Some resp) ->
        400 <= status_code resp < 600 ->
        exit_status (main w args) = 1)
  /\ (api_key_set w = true ->
      arg_question args = None \/ arg_question args = Some "" ->
      arg_from_jsonl args <> "" ->
      fs w !! arg_from_jsonl args = None ->
      exit_status (main w args) = 1).
Proof.
  split; [|split; [|split]].
  - unfold api_key_set, main. now intros ->.
  - intros Hkey. apply exit_status_of_fails_with_1, fails_with_1_main, Hkey.
  - intros Hkey resp Hpost Hs.
    rewrite exit_status_of_fails_with_1 by (apply fails_with_1_main, Hkey).
    now rewrite (main_http_error_not_ok w args resp).
  - intros Hkey Hq Hp Hfile. unfold api_key_set in Hkey. unfold main.
    rewrite Hkey. cbn [negb]. unfold load_question.
    rewrite (falsy_opt_str _ Hq). cbn [of_opt_str default from_option id].
    rewrite (truthy_nonempty _ Hp). cbn [negb]. now rewrite Hfile.
Qed.

End ClientProperties.

(** ** The whole program *)

Section ProgramProperties.
Import Responses Shape Report Program.
Context `{RT : Runtime}.

Lemma fails_with_1_print (c : console) (text : string) :
  fails_with_1 (print c text) = true.
Proof. unfold print. now destruct (stdout_encodes c text). Qed.

Ltac program_fails_step :=
  first
    [ reflexivity
    | apply fails_with_1_print
    | apply fails_with_1_get
    | apply fails_with_1_first
    | apply fails_with_1_extract
    | apply fails_with_1_bind; [|intros ?]
    | match goal with
      | |- fails_with_1 (if ?b then _ else _) = true => destruct b
      | |- fails_with_1 (let '(_, _) := ?p in _) = true => destruct p
      end ].

Lemma fails_with_1_report (c : console) (args : argv) (resp_json : json) :
  fails_with_1 (report c args resp_json) = true.
Proof. unfold report, py_get. repeat program_fails_step. Qed.

Lemma fails_with_1_checked_call (send : request -> option response)
    (api_key model : string) (messages : json)
    (max_tokens : Z) (temperature : spec_float) (json_mode : bool)
    (request_timeout : Z) (referer title reasoning_effort : option string)
    (include_usage_details : bool) :
  fails_with_1
    match
      call_openrouter_checked send api_key model messages max_tokens
        temperature json_mode request_timeout referer title reasoning_effort
        include_usage_details
    with
    | Raise (HTTPError status) =>
        _ ← eprint "Request failed with HTTP error:";
        Raise (SystemExit (ExitCode 1))
    | r => r
    end = true.
Proof.
  unfold call_openrouter_checked.
  destruct (float_is_finite temperature); [|reflexivity].
  unfold call_openrouter.
  match goal with |- context [send ?req] => destruct (send req) as [resp|] end;
    [|reflexivity].
  unfold raise_for_status, response_json.
  destruct ((400 <=? status_code resp) && (status_code resp <? 600));
    [reflexivity|].
  cbn. now destruct (json_body resp).
Qed.

Lemma fails_with_1_program (c : console) (w : world) (args : argv) :
  api_key_set w = true ->
  fails_with_1 (main_program c w (Parsed args)) = true.
Proof.
  unfold api_key_set, main_program. cbn [parse_args mbind result_bind].
  intros ->. cbn [negb].
  apply fails_with_1_bind; [apply fails_with_1_load_question | intros ex].
  unfold py_get.
  do 2 (apply fails_with_1_bind; [repeat program_fails_step | intros ?]).
  match goal with
  | |- fails_with_1 (if ?b then _ else _) = true => destruct b
  end; [reflexivity|].
  do 2 (apply fails_with_1_bind; [repeat program_fails_step | intros ?]).
  apply fails_with_1_bind; [apply fails_with_1_checked_call | intros resp_json].
  apply fails_with_1_report.
Qed.

(** With an HTTP error for answer, the program does not complete. *)
Lemma program_http_error_not_ok (c : console) (w : world) (args : argv)
    (resp : response) :
  answers w resp ->
  400 <= status_code resp < 600 ->
  is_ok (main_program c w (Parsed args)) = false.
Proof.
  intros Hpost Hs. unfold main_program. cbn [parse_args mbind result_bind].
  destruct (negb (truthy (of_opt_str (environ w !! "OPENROUTER_API_KEY"))));
    [reflexivity|].
  destruct (load_question _ _ _ _) as [ex|e]; [|reflexivity].
  cbn [mbind result_bind].
  destruct (py_get ex "question") as [q1|e]; [|reflexivity].
  cbn [mbind result_bind].
  match goal with
  | |- is_ok (mbind _ ?r) = false => destruct r as [question|e]; [|reflexivity]
  end.
  cbn [mbind result_bind].
  destruct (negb (truthy question)); [reflexivity|].
  match goal with
  | |- is_ok (mbind _ ?r) = false => destruct r as [u|e]; [|reflexivity]
  end.
  cbn [mbind result_bind].
  destruct (print c _) as [u'|e]; [|reflexivity].
  cbn [mbind result_bind].
  unfold call_openrouter_checked.
  destruct (float_is_finite (arg_temperature args)); [|reflexivity].
  now rewrite (call_openrouter_error_status (post w) resp) by assumption.
Qed.

(** C7 (amended): the program exits with status 2 when the argument
    parser rejects the command line, and, the arguments parsed, when
    [OPENROUTER_API_KEY] is unset or empty; it exits with status 0 after
    [--help].  With the arguments parsed and the key set it exits with
    status 0 when the run completes and with status 1 in every run that
    does not: when the request fails with an HTTP error, and also, before
    any request is sent, when the JSONL file of the question is
    missing. *)
Theorem program_exit_status (c : console) (w : world) :
  exit_status (main_program c w BadArguments) = 2
  /\ exit_status (main_program c w HelpRequested) = 0
  /\ (forall args,
        api_key_set w = false ->
        exit_status (main_program c w (Parsed args)) = 2)
  /\ (forall args,
        api_key_set w = true ->
        exit_status (main_program c w (Parsed args))
        = if is_ok (main_program c w (Parsed args)) then 0 else 1)
  /\ (forall args resp,
        api_key_set w = true ->
        answers w resp ->
        400 <= status_code resp < 600 ->
        exit_status (main_program c w (Parsed args)) = 1)
  /\ (forall args,
        api_key_set w = true ->
        arg_question args = None \/ arg_question args = Some "" ->
        arg_from_jsonl args <> "" ->
        fs w !! arg_from_jsonl args = None ->
        exit_status (main_program c w (Parsed args)) = 1).
Proof.
  split; [reflexivity|]. split; [reflexivity|].
  split; [|split; [|split]].
  - intros args. unfold api_key_set, main_program.
    cbn [parse_args mbind result_bind]. now intros ->.
  - intros args Hkey.
    apply exit_status_of_fails_with_1, fails_with_1_program, Hkey.
  - intros args resp Hkey Hpost Hs.
    rewrite exit_status_of_fails_with_1 by (apply fails_with_1_program, Hkey).
    now rewrite (program_http_error_not_ok c w args resp).
  - intros args Hkey Hq Hp Hfile. unfold api_key_set in Hkey.
    unfold main_program. cbn [parse_args mbind result_bind].
    rewrite Hkey. cbn [negb]. unfold load_question.
    rewrite (falsy_opt_str _ Hq). cbn [of_opt_str default from_option id].
    rewrite (truthy_nonempty _ Hp). cbn [negb]. now rewrite Hfile.
Qed.




End ProgramProperties.

(** * The properties on concrete inputs *)

Section Instances.
Import Responses PrepS1k Shape Examples Report Whitespace Program.
#[local] Existing Instance plain_runtime.

(** C1 as stated fails: without any choice the top-level
    [reasoning_details] are not read, and the trace is empty although the
    third source holds "x". *)
Lemma trace_ignores_top_level_without_choice :
  extract_reasoning_and_answer (JObj only_top_level) = Ok ("", "", JObj ∅)
  /\ spec_reasoning_trace only_top_level = "x".
Proof. split; reflexivity. Qed.

(** C1 as stated also fails on a padded fragment: a joined source is
    stripped, and the fragment " a" is returned as "a". *)
Lemma trace_strips_joined_fragments :
  extract_reasoning_and_answer (JObj padded_fragment)
  = Ok ("a", "",
        JObj {[ "finish_reason" := JNull; "native_finish_reason" := JNull;
                "role" := JNull ]})
  /\ spec_reasoning_trace padded_fragment = " a".
Proof. split; reflexivity. Qed.

(** C1 on a response holding both [message.reasoning] and
    [message.reasoning_details]. *)
Lemma reasoning_trace_first_true_source_witness :
  has_first_choice both_sources = true
  /\ response_shape both_sources = true
  /\ first_message both_sources !! "reasoning" = Some (JStr "think")
  /\ stripped_reasoning_trace both_sources = "think"
  /\ (exists content meta,
        extract_reasoning_and_answer (JObj both_sources)
        = Ok (stripped_reasoning_trace both_sources, content, meta))
  /\ exists content meta,
       extract_reasoning_and_answer (JObj both_sources)
       = Ok ("think", content, meta).
Proof.
  destruct (reasoning_trace_first_true_source both_sources eq_refl eq_refl)
    as (Hfirst & Hreasoning).
  repeat (split; [reflexivity|]).
  split; [exact (Hfirst eq_refl)|].
  exact (Hreasoning "think" eq_refl ltac:(discriminate)).
Defined.

(** C2 on a response with an answer and no reasoning. *)
Lemma no_reasoning_source_empty_trace_witness :
  choice_shape no_reasoning = true
  /\ first_message no_reasoning !! "reasoning" = None
  /\ first_message no_reasoning !! "reasoning_details" = None
  /\ no_reasoning !! "reasoning_details" = None
  /\ exists content meta,
       extract_reasoning_and_answer (JObj no_reasoning) = Ok ("", content, meta).
Proof.
  repeat (split; [reflexivity|]).
  apply (no_reasoning_source_empty_trace no_reasoning); reflexivity.
Defined.

(** C9 as stated fails: [{"choices": [1]}] makes the extraction raise,
    an [int] having no [get]. *)
Lemma extract_raises_on_number_choice :
  extract_reasoning_and_answer (JObj number_choice) = Raise AttributeError.
Proof. reflexivity. Qed.

(** C9 on three inputs: no choice, a full response, a list with a
    number among its entries. *)
Lemma extract_returns_on_shaped_responses_witness :
  extract_reasoning_and_answer (JObj only_top_level) = Ok ("", "", JObj ∅)
  /\ response_shape both_sources = true
  /\ is_ok (extract_reasoning_and_answer (JObj both_sources)) = true
  /\ has_text (JInt 3) = false
  /\ _join_reasoning_details (JArr ([JObj {[ "text" := JStr "a" ]}] ++ JInt 3 :: []))
     = _join_reasoning_details (JArr ([JObj {[ "text" := JStr "a" ]}] ++ [])).
Proof.
  destruct extract_returns_on_shaped_responses as (Hnone & Hshape & Hskip).
  split; [apply Hnone; left; reflexivity|].
  split; [reflexivity|].
  split; [apply Hshape; reflexivity|].
  split; [reflexivity|].
  apply Hskip. reflexivity.
Defined.

(** C3 on a row whose first trajectory is " Add. ": the think content
    is "Add.". *)
Lemma think_is_first_trajectory_stripped_witness :
  dataset_row padded_row = true
  /\ padded_row !! "thinking_trajectories"
     = Some (JArr [JStr " Add. "; JStr "unused"])
  /\ exists obj,
       row_record padded_row = Ok obj
       /\ content_of_role "think" obj = Some "Add.".
Proof.
  split; [reflexivity|]. split; [reflexivity|].
  destruct (think_is_first_trajectory_stripped padded_row " Add. "
              [JStr "unused"] eq_refl eq_refl)
    as (obj & think & Hrec & Hthink & Hstripped).
  exists obj. split; [exact Hrec|].
  now rewrite Hthink, (stripped_of_unique _ _ Hstripped).
Defined.

(** C4 on a row without [thinking_trajectories]. *)
Lemma think_is_empty_without_trajectory_witness :
  dataset_row row_no_trace = true
  /\ row_no_trace !! "thinking_trajectories" = None
  /\ exists obj,
       row_record row_no_trace = Ok obj
       /\ content_of_role "think" obj = Some "".
Proof.
  split; [reflexivity|]. split; [reflexivity|].
  apply (think_is_empty_without_trajectory row_no_trace);
    [reflexivity | left; reflexivity].
Defined.


(** C10 with an explicit question, and with neither question nor path. *)
Lemma load_question_prefers_explicit_question_witness :
  load_question two_lines (Some "rows.jsonl") 7 (Some "What is 13*17?")
  = Ok (JObj {[ "question" := JStr "What is 13*17?" ]})
  /\ load_question two_lines (Some "") 0 None
     = Ok (JObj {[ "question" :=
           JStr "What is the sum of the first 10 positive integers?" ]}).
Proof.
  destruct load_question_prefers_explicit_question as (Hq & Hdefault).
  split.
  - apply Hq. discriminate.
  - apply Hdefault; [left | right]; reflexivity.
Defined.

(** C8 on a missing file, a negative index and an index past the end
    of a file of two lines. *)
Lemma load_question_exits_on_missing_row_witness :
  two_lines !! "none.jsonl" = None
  /\ two_lines !! "rows.jsonl" = Some (RegularFile ["{}"; "{}"])
  /\ load_question two_lines (Some "none.jsonl") 0 None
     = Raise (SystemExit (ExitMsg "JSONL not found: none.jsonl"))
  /\ load_question two_lines (Some "rows.jsonl") (-1) None
     = Raise (SystemExit (ExitMsg "Index -1 out of range for rows.jsonl"))
  /\ load_question two_lines (Some "rows.jsonl") 2 None
     = Raise (SystemExit (ExitMsg "Index 2 out of range for rows.jsonl")).
Proof.
  split; [reflexivity|]. split; [reflexivity|]. split; [|split].
  - destruct (load_question_exits_on_missing_row two_lines "none.jsonl" 0 None
                (or_introl eq_refl) ltac:(discriminate)) as [Hmissing _].
    exact (Hmissing eq_refl).
  - destruct (load_question_exits_on_missing_row two_lines "rows.jsonl" (-1) None
                (or_introl eq_refl) ltac:(discriminate)) as [_ Hrange].
    exact (Hrange ["{}"; "{}"] eq_refl ltac:(left; lia)).
  - destruct (load_question_exits_on_missing_row two_lines "rows.jsonl" 2 None
                (or_introl eq_refl) ltac:(discriminate)) as [_ Hrange].
    exact (Hrange ["{}"; "{}"] eq_refl ltac:(right; cbn; lia)).
Defined.

(** C6 as stated fails: a 304 answer is not a 2xx one, and
    [call_openrouter] returns its parsed body; no HTTP error is raised. *)
Lemma call_openrouter_returns_on_304 :
  (status_code not_modified <? 200) || (300 <=? status_code not_modified) = true
  /\ call_openrouter (fun _ => Some not_modified) "sk" "openai/gpt-oss-20b:free"
       (build_messages "What is 13*17?") 16384 float_0_7 false 120
       None None (Some "medium") true
     = Ok (JObj ∅).
Proof. split; reflexivity. Qed.

(** C6 on a 404 and on a 200 answer. *)
Lemma call_openrouter_raises_on_error_status_witness :
  400 <= status_code not_found < 600
  /\ call_openrouter (fun _ => Some not_found) "sk" "openai/gpt-oss-20b:free"
       (build_messages "What is 13*17?") 16384 float_0_7 false 120
       None None (Some "medium") true
     = Raise (HTTPError 404)
  /\ 200 <= status_code ok_empty < 300
  /\ call_openrouter (fun _ => Some ok_empty) "sk" "openai/gpt-oss-20b:free"
       (build_messages "What is 13*17?") 16384 float_0_7 false 120
       None None (Some "medium") true
     = Ok (JObj ∅).
Proof.
  split; [cbn; lia|]. split; [|split; [cbn; lia|]].
  - destruct (call_openrouter_raises_on_error_status (fun _ => Some not_found)
                not_found "sk" "openai/gpt-oss-20b:free"
                (build_messages "What is 13*17?") 16384 float_0_7 false 120
                None None (Some "medium") true (fun _ => eq_refl))
      as (Herror & _ & _).
    apply Herror. cbn; lia.
  - destruct (call_openrouter_raises_on_error_status (fun _ => Some ok_empty)
                ok_empty "sk" "openai/gpt-oss-20b:free"
                (build_messages "What is 13*17?") 16384 float_0_7 false 120
                None None (Some "medium") true (fun _ => eq_refl))
      as (_ & _ & Hok).
    apply Hok; [cbn; lia | reflexivity].
Defined.

(** C7 as stated fails: the arguments parse, the key is set and the
    server would answer 200, yet the program exits with status 1, the
    default JSONL file being missing. *)
Lemma main_exits_1_without_http_error :
  api_key_set world_without_file = true
  /\ post world_without_file = (fun _ => Some ok_empty)
  /\ status_code ok_empty = 200
  /\ main_program plain_console world_without_file (Parsed default_args)
     = Raise (SystemExit (ExitMsg
         "JSONL not found: data/s1k-1.1/train_mini.jsonl"))
  /\ exit_status
       (main_program plain_console world_without_file (Parsed default_args))
     = 1.
Proof. repeat split. Qed.

(** C7 on a rejected command line, on [--help], without the key, on a
    404 answer to an explicit question, on a missing JSONL file, on a
    complete run and on a run whose standard output cannot encode the
    response. *)
Lemma program_exit_status_witness :
  exit_status (main_program plain_console world_without_key BadArguments) = 2
  /\ exit_status (main_program plain_console world_without_key HelpRequested) = 0
  /\ api_key_set world_without_key = false
  /\ exit_status
       (main_program plain_console world_without_key (Parsed default_args)) = 2
  /\ api_key_set (world_answering not_found) = true
  /\ 400 <= status_code not_found < 600
  /\ main_program plain_console (world_answering not_found)
       (Parsed args_with_question)
     = Raise (SystemExit (ExitCode 1))
  /\ exit_status
       (main_program plain_console (world_answering not_found)
          (Parsed args_with_question)) = 1
  /\ fs world_without_file !! arg_from_jsonl default_args = None
  /\ exit_status
       (main_program plain_console world_without_file (Parsed default_args)) = 1
  /\ main_program plain_console
       (world_answering (ok_with (Some (JObj answer_221))))
       (Parsed args_with_question) = Ok tt
  /\ exit_status
       (main_program plain_console
          (world_answering (ok_with (Some (JObj answer_221))))
          (Parsed args_with_question)) = 0
  /\ main_program ascii_console
       (world_answering (ok_with (Some (JObj answer_221))))
       (Parsed args_with_question) = Raise UnicodeEncodeError
  /\ exit_status
       (main_program ascii_console
          (world_answering (ok_with (Some (JObj answer_221))))
          (Parsed args_with_question)) = 1.
Proof.
  destruct (program_exit_status plain_console world_without_key)
    as (Hbad & Hhelp & Hunset & _).
  destruct (program_exit_status plain_console (world_answering not_found))
    as (_ & _ & _ & _ & Hhttp & _).
  destruct (program_exit_status plain_console world_without_file)
    as (_ & _ & _ & _ & _ & Hfile).
  destruct (program_exit_status plain_console
              (world_answering (ok_with (Some (JObj answer_221)))))
    as (_ & _ & _ & Hdone & _).
  destruct (program_exit_status ascii_console
              (world_answering (ok_with (Some (JObj answer_221)))))
    as (_ & _ & _ & Hprint & _).
  split; [exact Hbad|]. split; [exact Hhelp|].
  split; [reflexivity|]. split; [apply Hunset; reflexivity|].
  split; [reflexivity|]. split; [cbn; lia|]. split; [reflexivity|].
  split; [apply (Hhttp args_with_question not_found);
          [reflexivity | intros req; reflexivity | cbn; lia]|].
  split; [reflexivity|].
  split; [apply Hfile;
          [reflexivity | left; reflexivity | discriminate | reflexivity]|].
  split; [reflexivity|].
  split; [exact (Hdone args_with_question eq_refl)|].
  split; [reflexivity|].
  exact (Hprint args_with_question eq_refl).
Defined.

(** C2 as stated fails: [{"choices": [{"message": "hi"}]}] holds none of
    the three reasoning sources, and the extraction raises on it, a
    string having no [get]. *)
Lemma extract_raises_without_source :
  string_message !! "choices" = Some (JArr [JObj {[ "message" := JStr "hi" ]}])
  /\ first_message string_message !! "reasoning" = None
  /\ first_message string_message !! "reasoning_details" = None
  /\ string_message !! "reasoning_details" = None
  /\ extract_reasoning_and_answer (JObj string_message) = Raise AttributeError.
Proof. repeat split. Qed.

End Instances.

(** * Further properties of the scripts *)

#[local] Set Warnings "-clear-no-such-hyp".

(** ** More on the extraction *)

Section MoreExtractionProperties.
Import Responses Shape.
Context `{RT : Runtime}.

Ltac extract_simpl :=
  cbn -[lookup insert singletonM empty strip join _join_reasoning_details py_or].

Lemma py_or_idempotent (a b : json) : py_or (py_or a b) b = py_or a b.
Proof.
  unfold py_or. destruct (truthy a) eqn:Ha; [now rewrite Ha|].
  now destruct (truthy b).
Qed.

(** The three components on a first choice that is an object. *)
Lemma extract_first_choice_result (m choice : gmap string json) (rest : list json) :
  m !! "choices" = Some (JArr (JObj choice :: rest)) ->
  response_shape m = true ->
  extract_reasoning_and_answer (JObj m)
  = Ok (stripped_reasoning_trace m,
        py_str (py_or (default JNull (first_message m !! "content")) (JStr "")),
        JObj {[ "finish_reason" := default JNull (choice !! "finish_reason");
                "native_finish_reason" :=
                  default JNull (choice !! "native_finish_reason");
                "role" := default JNull (first_message m !! "role") ]}).
Proof.
  intros Hm Hs.
  assert (Hc : has_first_choice m = true) by (unfold has_first_choice; now rewrite Hm).
  destruct (extract_on_first_choice m Hc Hs) as (content & meta & He).
  rewrite He. revert He.
  unfold response_shape, choice_shape, first_choice_message in Hs.
  unfold first_message. rewrite Hm in *.
  apply andb_prop in Hs as [Hs _]. apply andb_prop in Hs as [Hs _].
  apply andb_prop in Hs as [_ Hmsg].
  unfold extract_reasoning_and_answer. extract_simpl. rewrite Hm.
  extract_simpl. rewrite (py_or_true (JArr _)) by reflexivity.
  extract_simpl. rewrite (message_or_empty (choice !! "message")) by assumption.
  set (msg := match choice !! "message" with
              | Some (JObj msg) => msg
              | _ => ∅
              end).
  extract_simpl. rewrite py_or_idempotent.
  match goal with
  | |- mbind _ ?r = _ -> _ => destruct r as [reasoning|e]
  end; extract_simpl; [|discriminate].
  now intros [= _ <- <-].
Qed.

(** The exceptions on a truthy [choices] of the wrong kind. *)
Lemma extract_first_not_dict (m : gmap string json) (v : json) (rest : list json) :
  m !! "choices" = Some (JArr (v :: rest)) ->
  is_dict v = false ->
  extract_reasoning_and_answer (JObj m) = Raise AttributeError.
Proof.
  intros Hm Hv. unfold extract_reasoning_and_answer. extract_simpl. rewrite Hm.
  extract_simpl. rewrite (py_or_true (JArr _)) by reflexivity.
  extract_simpl. now destruct v.
Qed.

Lemma extract_message_not_dict (m choice : gmap string json) (rest : list json)
    (v : json) :
  m !! "choices" = Some (JArr (JObj choice :: rest)) ->
  choice !! "message" = Some v ->
  truthy v = true -> is_dict v = false ->
  extract_reasoning_and_answer (JObj m) = Raise AttributeError.
Proof.
  intros Hm Hmsg Ht Hv. unfold extract_reasoning_and_answer. extract_simpl.
  rewrite Hm. extract_simpl. rewrite (py_or_true (JArr _)) by reflexivity.
  extract_simpl. rewrite Hmsg. extract_simpl.
  rewrite (py_or_true v) by assumption. now destruct v.
Qed.

Lemma extract_choices_not_list (m : gmap string json) (v : json) :
  m !! "choices" = Some v ->
  truthy v = true -> is_list v = false ->
  extract_reasoning_and_answer (JObj m)
  = Raise (match v with
           | JStr _ => AttributeError
           | JObj _ => KeyError
           | _ => TypeError
           end).
Proof.
  intros Hm Ht Hv. unfold extract_reasoning_and_answer. extract_simpl.
  rewrite Hm. extract_simpl. rewrite (py_or_true v) by assumption.
  rewrite Ht. extract_simpl.
  destruct v as [| | | |[|c s]| |]; try discriminate; reflexivity.
Qed.

Lemma extract_only_first_choice (m : gmap string json) (choice : json)
    (rest : list json) :
  m !! "choices" = Some (JArr (choice :: rest)) ->
  extract_reasoning_and_answer (JObj m)
  = extract_reasoning_and_answer (JObj (<[ "choices" := JArr [choice] ]> m)).
Proof.
  intros Hm. unfold extract_reasoning_and_answer. extract_simpl.
  rewrite Hm, lookup_insert_eq, lookup_insert_ne by discriminate.
  extract_simpl. rewrite !(py_or_true (JArr _)) by reflexivity.
  reflexivity.
Qed.

Lemma omap_text_fragment_none {A : Type} (g : A -> json) (l : list A) :
  (forall x, text_fragment (g x) = None) ->
  omap text_fragment (g <$> l) = [].
Proof.
  intros Hg. induction l as [|x l IH]; [reflexivity|].
  rewrite fmap_cons.
  change (omap text_fragment (g x :: (g <$> l)))
    with (match text_fragment (g x) with
          | Some t => t :: omap text_fragment (g <$> l)
          | None => omap text_fragment (g <$> l)
          end).
  now rewrite Hg.
Qed.

(** X1: the attempt returned by [extract_reasoning_and_answer] on a
    well-shaped response with a first choice is the first choice's
    [message.content]: the string itself when it is a string; the empty
    string when it is absent, [None] or any other false value (0, [false],
    an empty list or dict); [str] of the value when it is a true value. *)
Theorem attempt_is_message_content
    (m choice : gmap string json) (rest : list json) :
  m !! "choices" = Some (JArr (JObj choice :: rest)) ->
  response_shape m = true ->
  exists trace attempt meta,
    extract_reasoning_and_answer (JObj m) = Ok (trace, attempt, meta)
    /\ (forall s, first_message m !! "content" = Some (JStr s) -> attempt = s)
    /\ (first_message m !! "content" = None -> attempt = "")
    /\ (forall v, first_message m !! "content" = Some v ->
                  truthy v = false -> attempt = "")
    /\ (forall v, first_message m !! "content" = Some v ->
                  truthy v = true -> attempt = py_str v).
Proof.
  intros Hm Hs. eexists _, _, _.
  split; [exact (extract_first_choice_result m choice rest Hm Hs)|].
  split; [|split; [|split]].
  - intros s ->. cbn [default from_option id]. unfold py_or.
    now destruct s.
  - now intros ->.
  - intros v -> Hv. cbn [default from_option id].
    now rewrite (py_or_false _ _ Hv).
  - intros v -> Hv. cbn [default from_option id].
    now rewrite (py_or_true _ _ Hv).
Qed.

(** X2: the meta dict returned on a well-shaped response with a first
    choice has exactly the keys [finish_reason], [native_finish_reason]
    (read from the first choice) and [role] (read from its message), each
    [None] when the field is absent. *)
Theorem meta_has_three_fields
    (m choice : gmap string json) (rest : list json) :
  m !! "choices" = Some (JArr (JObj choice :: rest)) ->
  response_shape m = true ->
  exists trace attempt meta,
    extract_reasoning_and_answer (JObj m) = Ok (trace, attempt, JObj meta)
    /\ meta !! "finish_reason" = Some (default JNull (choice !! "finish_reason"))
    /\ meta !! "native_finish_reason"
       = Some (default JNull (choice !! "native_finish_reason"))
    /\ meta !! "role" = Some (default JNull (first_message m !! "role"))
    /\ dom meta = {[ "finish_reason"; "native_finish_reason"; "role" ]}.
Proof.
  intros Hm Hs. eexists _, _, _.
  split; [exact (extract_first_choice_result m choice rest Hm Hs)|].
  split; [reflexivity|]. split; [reflexivity|]. split; [reflexivity|].
  rewrite !dom_insert_L, dom_singleton_L. set_solver.
Qed.

(** X3: only the first choice is read: the result, returned or raised, is
    the same when the other choices are dropped. *)
Theorem extraction_reads_first_choice_only
    (m : gmap string json) (choice : json) (rest : list json) :
  m !! "choices" = Some (JArr (choice :: rest)) ->
  extract_reasoning_and_answer (JObj m)
  = extract_reasoning_and_answer (JObj (<[ "choices" := JArr [choice] ]> m)).
Proof. apply extract_only_first_choice. Qed.

(** X4: what [extract_reasoning_and_answer] raises on a response of the
    wrong shape: [AttributeError] when the first choice is not a dict,
    when the first message is a true value that is not a dict, or when
    [choices] is a non-empty string; [KeyError] when [choices] is a
    non-empty dict; [TypeError] when [choices] is a true number or
    boolean. *)
Theorem extraction_raises_on_wrong_shape :
  (forall (m : gmap string json) (v : json) (rest : list json),
     m !! "choices" = Some (JArr (v :: rest)) -> is_dict v = false ->
     extract_reasoning_and_answer (JObj m) = Raise AttributeError)
  /\ (forall (m choice : gmap string json) (rest : list json) (v : json),
        m !! "choices" = Some (JArr (JObj choice :: rest)) ->
        choice !! "message" = Some v ->
        truthy v = true -> is_dict v = false ->
        extract_reasoning_and_answer (JObj m) = Raise AttributeError)
  /\ (forall (m : gmap string json) (v : json),
        m !! "choices" = Some v ->
        truthy v = true -> is_list v = false ->
        extract_reasoning_and_answer (JObj m)
        = Raise (match v with
                 | JStr _ => AttributeError
                 | JObj _ => KeyError
                 | _ => TypeError
                 end)).
Proof.
  split; [|split].
  - apply extract_first_not_dict.
  - apply extract_message_not_dict.
  - apply extract_choices_not_list.
Qed.

(** X5: [_join_reasoning_details] on something that is not a list: a false
    value, a string and a dict give the empty string (no character and no
    key is a dict), a true number or boolean raises [TypeError]. *)
Theorem join_of_non_list :
  (forall v : json, truthy v = false -> _join_reasoning_details v = Ok "")
  /\ (forall s : string, _join_reasoning_details (JStr s) = Ok "")
  /\ (forall d : gmap string json, _join_reasoning_details (JObj d) = Ok "")
  /\ (forall v : json,
        truthy v = true ->
        is_list v = false -> is_str v = false -> is_dict v = false ->
        _join_reasoning_details v = Raise TypeError).
Proof.
  split; [|split; [|split]].
  - intros v Hv. unfold _join_reasoning_details. now rewrite Hv.
  - intros s. unfold _join_reasoning_details.
    destruct (truthy (JStr s)); [|reflexivity]. cbn [negb py_iter mbind result_bind].
    now rewrite omap_text_fragment_none.
  - intros d. unfold _join_reasoning_details.
    destruct (truthy (JObj d)); [|reflexivity]. cbn [negb py_iter mbind result_bind].
    now rewrite omap_text_fragment_none.
  - intros v Ht Hl Hs Hd. unfold _join_reasoning_details. rewrite Ht.
    now destruct v.
Qed.

(** X6: the join of a [reasoning_details] list is a stripped string: it
    is left unchanged by [strip], and neither its first nor its last
    character is whitespace. *)
Theorem join_is_stripped (l : list json) :
  exists s,
    _join_reasoning_details (JArr l) = Ok s
    /\ strip s = s
    /\ (forall c s', s = String c s' -> isspace c = false)
    /\ (forall c s', rev_string s = String c s' -> isspace c = false).
Proof.
  exists (strip (join LF (omap text_fragment l))).
  split; [apply join_list|]. split; [apply strip_idempotent|]. split.
  - intros c s'. apply strip_starts_clean.
  - intros c s'. apply strip_ends_clean.
Qed.

End MoreExtractionProperties.

(** ** More on the conversion *)

Section MoreConverterProperties.
Import PrepS1k Shape.
Context `{RT : Runtime}.

(** A written record is made of three stripped strings. *)
Lemma row_record_ok (ex : gmap string json) (obj : json) :
  row_record ex = Ok obj ->
  exists q trace ans,
    obj = JObj {[ "messages" :=
                    JArr [ message "user" (strip q); message "think" (strip trace);
                           message "answer" (strip ans) ] ]}.
Proof.
  unfold row_record, py_item, py_get, py_get_default.
  destruct (ex !! "question") as [[| | | |q| |]|]; try discriminate.
  destruct (ex !! "attempt") as [a|]; try discriminate.
  cbn -[lookup insert singletonM empty strip py_or message truthy py_first].
  destruct (truthy _).
  - destruct (py_first _) as [[| | | |t| |]|]; try discriminate.
    intros [= <-]. now exists q, t, (py_str a).
  - intros [= <-]. now exists q, "", (py_str a).
Qed.

Lemma write_rows_app (ds1 ds2 : list (gmap string json)) (objs : list json)
    (f : list string) :
  Forall2 (fun ex obj => row_record ex = Ok obj) ds1 objs ->
  write_rows (ds1 ++ ds2) f = write_rows ds2 (f ++ (record_line <$> objs))%list.
Proof.
  intros Hall. revert f.
  induction Hall as [|ex obj ds1 objs Hrec Hall IH]; intros f.
  - cbn. now rewrite app_nil_r.
  - cbn [app write_rows]. rewrite Hrec, IH, fmap_cons.
    now rewrite <- app_assoc.
Qed.

Lemma write_rows_length (ds : list (gmap string json)) (f : list string) :
  (length (write_rows ds f).1 <= length f + length ds)%nat
  /\ ((write_rows ds f).2 = Ok tt ->
      length (write_rows ds f).1 = (length f + length ds)%nat)
  /\ (is_ok (write_rows ds f).2 = false ->
      (length (write_rows ds f).1 < length f + length ds)%nat).
Proof.
  revert f. induction ds as [|ex ds IH]; intros f.
  - cbn. repeat split; intros; try lia; discriminate.
  - cbn [write_rows length]. destruct (row_record ex) as [obj|e].
    + destruct (IH (f ++ [record_line obj])%list) as (Hle & Hok & Hfail).
      rewrite length_app in Hle, Hok, Hfail. cbn [length] in Hle, Hok, Hfail.
      repeat split; [lia | intros H; specialize (Hok H); lia
                    | intros H; specialize (Hfail H); lia].
    + cbn. repeat split; intros; try lia; discriminate.
Qed.

(** X7: the script stops at the first row it cannot convert: the lines of
    the rows before it are written, the exception of that row ends the
    script, and no later row is written. *)
Theorem conversion_stops_at_first_failure
    (before after : list (gmap string json)) (bad : gmap string json)
    (objs : list json) (e : exn) :
  Forall2 (fun ex obj => row_record ex = Ok obj) before objs ->
  row_record bad = Raise e ->
  prep_s1k_chatml (before ++ bad :: after) = (record_line <$> objs, Raise e).
Proof.
  intros Hall Hbad. unfold prep_s1k_chatml.
  rewrite (write_rows_app before (bad :: after) objs [] Hall).
  cbn [write_rows app]. now rewrite Hbad.
Qed.

(** X8: the script never writes more lines than the dataset has rows; it
    writes exactly one line per row when it ends normally, and fewer when
    it ends with an exception. *)
Theorem lines_written_bounded_by_rows (ds : list (gmap string json)) :
  (length (prep_s1k_chatml ds).1 <= length ds)%nat
  /\ ((prep_s1k_chatml ds).2 = Ok tt ->
      length (prep_s1k_chatml ds).1 = length ds)
  /\ (is_ok (prep_s1k_chatml ds).2 = false ->
      (length (prep_s1k_chatml ds).1 < length ds)%nat).
Proof. exact (write_rows_length ds []). Qed.

(** X9: what the loop body raises on a malformed row: [KeyError] when
    [question] or [attempt] is missing, [AttributeError] when [question]
    or the first trajectory is not a string. *)
Theorem row_record_raises_on_malformed_row :
  (forall ex : gmap string json,
     ex !! "question" = None -> row_record ex = Raise KeyError)
  /\ (forall (ex : gmap string json) (v : json),
        ex !! "question" = Some v -> is_str v = false ->
        row_record ex = Raise AttributeError)
  /\ (forall (ex : gmap string json) (q : string),
        ex !! "question" = Some (JStr q) -> ex !! "attempt" = None ->
        row_record ex = Raise KeyError)
  /\ (forall (ex : gmap string json) (q : string) (a v : json) (rest : list json),
        ex !! "question" = Some (JStr q) -> ex !! "attempt" = Some a ->
        ex !! "thinking_trajectories" = Some (JArr (v :: rest)) ->
        is_str v = false ->
        row_record ex = Raise AttributeError).
Proof.
  unfold row_record, py_item, py_get, py_get_default.
  split; [|split; [|split]].
  - now intros ex ->.
  - intros ex v -> Hv. now destruct v.
  - now intros ex q -> ->.
  - intros ex q a v rest -> -> -> Hv. now destruct v.
Qed.

(** X10: every message content of a written record is stripped: [strip]
    leaves it unchanged. *)
Theorem record_contents_are_stripped (ex : gmap string json) (obj msg : json) :
  row_record ex = Ok obj ->
  In msg (record_messages obj) ->
  exists c, message_content msg = Some c /\ strip c = c.
Proof.
  intros Hrec Hin.
  destruct (row_record_ok ex obj Hrec) as (q & trace & ans & ->).
  change (In msg [ message "user" (strip q); message "think" (strip trace);
                   message "answer" (strip ans) ]) in Hin.
  destruct Hin as [<- | [<- | [<- | []]]];
    (eexists; split; [reflexivity | apply strip_idempotent]).
Qed.

(** X11: the record of a row depends only on its [question], its
    [attempt] and the first element of its [thinking_trajectories]: other
    fields and later trajectories are not read. *)
Theorem row_record_reads_three_fields :
  (forall ex ex' : gmap string json,
     ex !! "question" = ex' !! "question" ->
     ex !! "attempt" = ex' !! "attempt" ->
     ex !! "thinking_trajectories" = ex' !! "thinking_trajectories" ->
     row_record ex = row_record ex')
  /\ (forall (ex : gmap string json) (t : json) (rest rest' : list json),
        ex !! "thinking_trajectories" = Some (JArr (t :: rest)) ->
        row_record (<[ "thinking_trajectories" := JArr (t :: rest') ]> ex)
        = row_record ex).
Proof.
  unfold row_record, py_item, py_get, py_get_default. split.
  - now intros ex ex' -> -> ->.
  - intros ex t rest rest' Ht.
    rewrite lookup_insert_eq, !lookup_insert_ne, Ht by discriminate.
    reflexivity.
Qed.

End MoreConverterProperties.

(** ** More on the client *)

Section MoreClientProperties.
Import Responses Shape Report Program.
Context `{RT : Runtime}.

Lemma find_line_in_range (lines : list string) (i index : Z) (line : string) :
  i <= index ->
  lines !! Z.to_nat (index - i) = Some line ->
  find_line lines i index
  = Some (match json_loads line with
          | Some ex => Ok ex
          | None => Raise JSONDecodeError
          end).
Proof.
  revert i. induction lines as [|l lines IH]; intros i Hi Hl; [discriminate|].
  cbn [find_line]. destruct (Z.eqb_spec i index) as [->|Hne].
  - rewrite Z.sub_diag in Hl. now injection Hl as ->.
  - apply IH; [lia|].
    replace (Z.to_nat (index - i)) with (S (Z.to_nat (index - (i + 1)))) in Hl
      by lia.
    exact Hl.
Qed.

(** X12: when the question is taken from a JSONL file and the index is
    that of a line, [load_question] returns [json.loads] of that line (a
    decoding error when the line is not valid JSON), whatever the other
    lines hold. *)
Theorem load_question_returns_indexed_line
    (files : gmap string fs_entry) (path : string) (index : Z)
    (fallback_question : option string) (lines : list string) (line : string) :
  fallback_question = None \/ fallback_question = Some "" ->
  path <> "" ->
  files !! path = Some (RegularFile lines) ->
  0 <= index ->
  lines !! Z.to_nat index = Some line ->
  load_question files (Some path) index fallback_question
  = match json_loads line with
    | Some ex => Ok ex
    | None => Raise JSONDecodeError
    end.
Proof.
  intros Hf Hp Hfile Hi Hl. unfold load_question.
  rewrite (falsy_opt_str _ Hf). cbn [of_opt_str default from_option id].
  rewrite (truthy_nonempty path Hp). cbn [negb]. rewrite Hfile.
  rewrite (find_line_in_range lines 0 index line); [reflexivity | lia |].
  now rewrite Z.sub_0_r.
Qed.

(** The request [call_openrouter] sends, and what it does with the
    outcome. *)
Lemma call_openrouter_request (api_key model : string) (messages : json)
    (max_tokens : Z) (temperature : spec_float) (json_mode : bool)
    (request_timeout : Z) (referer title reasoning_effort : option string)
    (include_usage_details : bool) :
  exists req,
    (forall send,
       call_openrouter send api_key model messages max_tokens temperature
         json_mode request_timeout referer title reasoning_effort
         include_usage_details
       = match send req with
         | None => Raise ConnectionError
         | Some resp => _ ← raise_for_status resp; response_json resp
         end)
    /\ (req_url req = OPENROUTER_URL /\ req_timeout req = request_timeout)
    /\ (req_headers req !! "Authorization" = Some ("Bearer " ++ api_key)
        /\ req_headers req !! "Content-Type" = Some "application/json"
        /\ req_headers req !! "HTTP-Referer"
           = (if truthy (of_opt_str referer) then referer else None)
        /\ req_headers req !! "X-Title"
           = (if truthy (of_opt_str title) then title else None)
        /\ dom (req_headers req)
           ⊆ {[ "Authorization"; "Content-Type"; "HTTP-Referer"; "X-Title" ]})
    /\ (req_json req !! "model" = Some (JStr model)
        /\ req_json req !! "messages" = Some messages
        /\ req_json req !! "temperature" = Some (JFloat temperature)
        /\ req_json req !! "max_tokens" = Some (JInt max_tokens)
        /\ req_json req !! "response_format"
           = (if json_mode
              then Some (JObj {[ "type" := JStr "json_object" ]}) else None)
        /\ req_json req !! "reasoning"
           = (if truthy (of_opt_str reasoning_effort)
              then Some (JObj {[ "effort" := of_opt_str reasoning_effort ]})
              else None)
        /\ req_json req !! "usage"
           = (if include_usage_details
              then Some (JObj {[ "include" := JBool true ]}) else None)
        /\ dom (req_json req)
           ⊆ {[ "model"; "messages"; "temperature"; "max_tokens";
                "response_format"; "reasoning"; "usage" ]}).
Proof.
  unfold call_openrouter. eexists. split; [intros send; reflexivity|].
  cbn [req_url req_timeout req_headers req_json].
  split; [split; reflexivity|]. split.
  - destruct referer as [[|c r]|], title as [[|c' t]|];
      (repeat (split; [reflexivity|]));
      rewrite ?dom_insert_L, ?dom_singleton_L; set_solver.
  - destruct reasoning_effort as [[|c e]|], json_mode, include_usage_details;
      (repeat (split; [reflexivity|]));
      rewrite ?dom_insert_L, ?dom_singleton_L; set_solver.
Qed.

(** X13: [call_openrouter] hands [requests.post] one request, fixed by
    its arguments: to [OPENROUTER_URL] with the given timeout; it always
    carries the [Authorization] header "Bearer <api_key>" and the JSON
    content type, carries [HTTP-Referer] and [X-Title] exactly when the
    argument is a non-empty string, and no other header.  When an answer
    comes back the result is decided by that answer alone, the status
    check and then the JSON body; without an answer nothing is
    returned. *)
Theorem request_headers (api_key model : string) (messages : json)
    (max_tokens : Z) (temperature : spec_float) (json_mode : bool)
    (request_timeout : Z) (referer title reasoning_effort : option string)
    (include_usage_details : bool) :
  exists req,
    (forall send resp,
       send req = Some resp ->
       call_openrouter send api_key model messages max_tokens temperature
         json_mode request_timeout referer title reasoning_effort
         include_usage_details
       = (_ ← raise_for_status resp; response_json resp))
    /\ (forall send,
          send req = None ->
          is_ok (call_openrouter send api_key model messages max_tokens
                   temperature json_mode request_timeout referer title
                   reasoning_effort include_usage_details) = false)
    /\ req_url req = OPENROUTER_URL /\ req_timeout req = request_timeout
    /\ req_headers req !! "Authorization" = Some ("Bearer " ++ api_key)
    /\ req_headers req !! "Content-Type" = Some "application/json"
    /\ req_headers req !! "HTTP-Referer"
       = (if truthy (of_opt_str referer) then referer else None)
    /\ req_headers req !! "X-Title"
       = (if truthy (of_opt_str title) then title else None)
    /\ dom (req_headers req)
       ⊆ {[ "Authorization"; "Content-Type"; "HTTP-Referer"; "X-Title" ]}.
Proof.
  destruct (call_openrouter_request api_key model messages max_tokens
              temperature json_mode request_timeout referer title
              reasoning_effort include_usage_details)
    as (req & Hcall & (Hurl & Htime) & (Ha & Hc & Hr & Ht & Hdom) & _).
  exists req.
  split; [intros send resp Hsend; now rewrite Hcall, Hsend|].
  split; [intros send Hsend; now rewrite Hcall, Hsend|].
  repeat (split; [assumption|]). assumption.
Qed.

(** X14: the JSON payload of [call_openrouter] always holds [model],
    [messages], [temperature] and [max_tokens]; it holds
    [response_format] exactly in JSON mode, [reasoning] (with the effort)
    exactly when the effort is a non-empty string, [usage] exactly when
    usage details are asked for, and no other key. *)
Theorem request_payload (api_key model : string) (messages : json)
    (max_tokens : Z) (temperature : spec_float) (json_mode : bool)
    (request_timeout : Z) (referer title reasoning_effort : option string)
    (include_usage_details : bool) :
  exists req,
    (forall send,
       call_openrouter send api_key model messages max_tokens temperature
         json_mode request_timeout referer title reasoning_effort
         include_usage_details
       = match send req with
         | None => Raise ConnectionError
         | Some resp => _ ← raise_for_status resp; response_json resp
         end)
    /\ req_json req !! "model" = Some (JStr model)
    /\ req_json req !! "messages" = Some messages
    /\ req_json req !! "temperature" = Some (JFloat temperature)
    /\ req_json req !! "max_tokens" = Some (JInt max_tokens)
    /\ req_json req !! "response_format"
       = (if json_mode
          then Some (JObj {[ "type" := JStr "json_object" ]}) else None)
    /\ req_json req !! "reasoning"
       = (if truthy (of_opt_str reasoning_effort)
          then Some (JObj {[ "effort" := of_opt_str reasoning_effort ]})
          else None)
    /\ req_json req !! "usage"
       = (if include_usage_details
          then Some (JObj {[ "include" := JBool true ]}) else None)
    /\ dom (req_json req)
       ⊆ {[ "model"; "messages"; "temperature"; "max_tokens";
            "response_format"; "reasoning"; "usage" ]}.
Proof.
  destruct (call_openrouter_request api_key model messages max_tokens
              temperature json_mode request_timeout referer title
              reasoning_effort include_usage_details)
    as (req & Hcall & _ & _ & Hpayload).
  exists req. split; [exact Hcall | exact Hpayload].
Qed.

(** With the key set and an explicit question, [main] is the call
    followed by the end of [main]. *)
Lemma main_with_question (w : world) (args : argv) (k q : string) :
  environ w !! "OPENROUTER_API_KEY" = Some k -> k <> "" ->
  arg_question args = Some q -> q <> "" ->
  main w args
  = (resp_json ←
       except_http_error
         (call_openrouter (post w) k (arg_model args) (build_messages q)
            (arg_max_tokens args) (arg_temperature args) (arg_json_mode args)
            120
            (Some (environ_or (environ w) "OPENROUTER_SITE_URL" "http://localhost"))
            (Some (environ_or (environ w) "OPENROUTER_TITLE" "s1k-generation-test"))
            (Some (effort_str (arg_reasoning_effort args)))
            (negb (arg_no_usage_details args)));
     after_response resp_json).
Proof.
  intros Hk Hkne Hq Hqne. unfold main, load_question. rewrite Hk, Hq.
  cbn [of_opt_str default from_option id].
  rewrite (truthy_nonempty k Hkne), (truthy_nonempty q Hqne).
  cbn -[call_openrouter build_messages extract_reasoning_and_answer environ_or].
  rewrite lookup_singleton_eq.
  repeat (cbn [default from_option id mbind result_bind negb py_str];
          rewrite ?(truthy_nonempty q Hqne)).
  unfold except_http_error, after_response.
  destruct (call_openrouter _ _ _ _ _ _ _ _ _ _ _ _) as [body|[]]; reflexivity.
Qed.

Lemma load_question_explicit (files : gmap string fs_entry)
    (from_jsonl : option string) (index : Z) (q : string) :
  q <> "" ->
  load_question files from_jsonl index (Some q) = Ok (JObj {[ "question" := JStr q ]}).
Proof.
  intros Hq. unfold load_question. cbn [of_opt_str].
  now rewrite (truthy_nonempty q Hq).
Qed.

Lemma extract_shape_ok (m : gmap string json) :
  response_shape m = true ->
  exists r, extract_reasoning_and_answer (JObj m) = Ok r.
Proof.
  intros Hs. destruct (has_first_choice m) eqn:Hc.
  - destruct (extract_on_first_choice m Hc Hs) as (content & meta & He). eauto.
  - eexists. apply extract_without_choices.
    unfold response_shape, choice_shape in Hs. rewrite Hc, orb_false_r in Hs.
    repeat (apply andb_prop in Hs as [Hs _]).
    destruct (m !! "choices") as [v|]; [|reflexivity].
    cbn in Hs |- *. rewrite orb_false_r in Hs. now apply negb_true_iff.
Qed.


Ltac report_simpl :=
  cbn -[lookup insert singletonM empty extract_reasoning_and_answer truthy].


Lemma after_response_usage_not_dict (m : gmap string json) (v : json) :
  response_shape m = true ->
  m !! "usage" = Some v -> is_dict v = false ->
  after_response (JObj m) = Raise AttributeError.
Proof.
  intros Hs Hu Hv. destruct (extract_shape_ok m Hs) as (r & He).
  unfold after_response. rewrite He. report_simpl. rewrite Hu.
  now destruct v.
Qed.

Lemma after_response_message_not_dict (m choice : gmap string json)
    (rest : list json) (v : json) :
  response_shape m = true ->
  absent_or_dict (m !! "usage") = true ->
  m !! "choices" = Some (JArr (JObj choice :: rest)) ->
  choice !! "message" = Some v -> is_dict v = false ->
  after_response (JObj m) = Raise AttributeError.
Proof.
  intros Hs Hu Hm Hmsg Hv. destruct (extract_shape_ok m Hs) as (r & He).
  unfold after_response. rewrite He. report_simpl.
  destruct (m !! "usage") as [[| | | | | |usage]|]; try discriminate;
    report_simpl; rewrite Hm; report_simpl; rewrite Hmsg; now destruct v.
Qed.

(** With the key set, an explicit question and a server answering [resp],
    not an error, with a JSON body, [main] is its end on that body. *)
Lemma main_on_body (w : world) (args : argv) (k q : string)
    (resp : response) (body : json) :
  environ w !! "OPENROUTER_API_KEY" = Some k -> k <> "" ->
  arg_question args = Some q -> q <> "" ->
  answers w resp ->
  ~ 400 <= status_code resp < 600 ->
  json_body resp = Some body ->
  main w args = after_response body.
Proof.
  intros Hk Hkne Hq Hqne Hresp Hs Hbody.
  rewrite (main_with_question w args k q) by assumption.
  rewrite (call_openrouter_answer (post w) resp) by exact Hresp.
  unfold raise_for_status, response_json. rewrite Hbody.
  destruct (Z.leb_spec 400 (status_code resp));
    destruct (Z.ltb_spec (status_code resp) 600); try reflexivity; lia.
Qed.

(** X15: with an explicit question [main] does not read the file system:
    its outcome is the same on any other set of files. *)
Theorem main_with_question_ignores_files
    (w : world) (args : argv) (q : string) (files : gmap string fs_entry) :
  arg_question args = Some q -> q <> "" ->
  main w args
  = main {| environ := environ w; fs := files; post := post w |} args.
Proof.
  intros Hq Hqne. unfold main. cbn [environ fs post].
  rewrite Hq, !(load_question_explicit _ _ _ q Hqne). reflexivity.
Qed.

(** X16: how [main] ends, by what the transport does (key set, explicit
    question): a connection failure is not caught and ends [main] with
    [ConnectionError]; an HTTP error status is caught and turned into
    [sys.exit(1)]; another answer whose body is not JSON ends [main] with
    the decoding error. *)
Theorem main_outcome_by_transport (w : world) (args : argv) (k q : string) :
  environ w !! "OPENROUTER_API_KEY" = Some k -> k <> "" ->
  arg_question args = Some q -> q <> "" ->
  ((forall req, post w req = None) -> main w args = Raise ConnectionError)
  /\ (forall resp,
        answers w resp -> 400 <= status_code resp < 600 ->
        main w args = Raise (SystemExit (ExitCode 1)))
  /\ (forall resp,
        answers w resp -> ~ 400 <= status_code resp < 600 ->
        json_body resp = None ->
        main w args = Raise JSONDecodeError).
Proof.
  intros Hk Hkne Hq Hqne.
  rewrite (main_with_question w args k q) by assumption.
  split; [|split].
  - intros Hnone. unfold call_openrouter. now rewrite Hnone.
  - intros resp Hresp Hs.
    now rewrite (call_openrouter_error_status (post w) resp) by assumption.
  - intros resp Hresp Hs Hbody.
    rewrite (call_openrouter_answer (post w) resp) by exact Hresp.
    unfold raise_for_status, response_json. rewrite Hbody.
    destruct (Z.leb_spec 400 (status_code resp));
      destruct (Z.ltb_spec (status_code resp) 600); try reflexivity; lia.
Qed.


(** X18: a first choice whose [message] is present but not a dict
    ([null] for instance) is accepted by the extraction, which takes it
    for an empty message, but makes the end of [main] raise
    [AttributeError]: the process exits with status 1 after the
    extraction succeeded. *)
Theorem main_raises_on_null_message (w : world) (args : argv) (k q : string)
    (resp : response) (m choice : gmap string json) (rest : list json)
    (v : json) :
  environ w !! "OPENROUTER_API_KEY" = Some k -> k <> "" ->
  arg_question args = Some q -> q <> "" ->
  answers w resp ->
  ~ 400 <= status_code resp < 600 ->
  json_body resp = Some (JObj m) ->
  response_shape m = true ->
  absent_or_dict (m !! "usage") = true ->
  m !! "choices" = Some (JArr (JObj choice :: rest)) ->
  choice !! "message" = Some v -> is_dict v = false ->
  is_ok (extract_reasoning_and_answer (JObj m)) = true
  /\ main w args = Raise AttributeError
  /\ exit_status (main w args) = 1.
Proof.
  intros Hk Hkne Hq Hqne Hresp Hs Hbody Hshape Hu Hm Hmsg Hv.
  split.
  - destruct (extract_shape_ok m Hshape) as (r & ->). reflexivity.
  - rewrite (main_on_body w args k q resp (JObj m)) by assumption.
    now rewrite (after_response_message_not_dict m choice rest v).
Qed.

(** X19: a [usage] field that is present but not a dict ([null] for
    instance) makes the end of [main] raise [AttributeError], although the
    extraction succeeded. *)
Theorem main_raises_on_null_usage (w : world) (args : argv) (k q : string)
    (resp : response) (m : gmap string json) (v : json) :
  environ w !! "OPENROUTER_API_KEY" = Some k -> k <> "" ->
  arg_question args = Some q -> q <> "" ->
  answers w resp ->
  ~ 400 <= status_code resp < 600 ->
  json_body resp = Some (JObj m) ->
  response_shape m = true ->
  m !! "usage" = Some v -> is_dict v = false ->
  is_ok (extract_reasoning_and_answer (JObj m)) = true
  /\ main w args = Raise AttributeError
  /\ exit_status (main w args) = 1.
Proof.
  intros Hk Hkne Hq Hqne Hresp Hs Hbody Hshape Hu Hv.
  split.
  - destruct (extract_shape_ok m Hshape) as (r & ->). reflexivity.
  - rewrite (main_on_body w args k q resp (JObj m)) by assumption.
    now rewrite (after_response_usage_not_dict m v).
Qed.

(** X20: when the row loaded is a dict with neither a true [question]
    nor a true [prompt], [main] stops with the message "Could not
    determine a question to send." and sends no request: the
    [args.question] alternative cannot help, the row coming from the file
    only when no question was given.  A row that is not a dict makes
    [main] raise [AttributeError]. *)
Theorem main_stops_without_question (w : world) (args : argv) :
  api_key_set w = true ->
  (forall ex : gmap string json,
     load_question (fs w) (Some (arg_from_jsonl args)) (arg_index args)
       (arg_question args) = Ok (JObj ex) ->
     absent_or (fun _ => false) (ex !! "question") = true ->
     absent_or (fun _ => false) (ex !! "prompt") = true ->
     main w args
     = Raise (SystemExit (ExitMsg "Could not determine a question to send.")))
  /\ (forall v : json,
        load_question (fs w) (Some (arg_from_jsonl args)) (arg_index args)
          (arg_question args) = Ok v ->
        is_dict v = false ->
        main w args = Raise AttributeError).
Proof.
  unfold api_key_set. intros Hkey. split.
  - intros ex Hload Hq Hp.
    assert (Hno : truthy (of_opt_str (arg_question args)) = false).
    { destruct (truthy (of_opt_str (arg_question args))) eqn:Ht; [|reflexivity].
      unfold load_question in Hload. rewrite Ht in Hload.
      injection Hload as <-. rewrite lookup_singleton_eq in Hq.
      cbn in Hq. rewrite Ht in Hq. discriminate. }
    unfold main. rewrite Hkey, Hload.
    cbn -[lookup call_openrouter build_messages truthy].
    assert (Hfalse : forall o, absent_or (fun _ => false) o = true ->
                               truthy (default JNull o) = false).
    { intros [v|]; [|reflexivity]. cbn. rewrite orb_false_r.
      apply negb_true_iff. }
    rewrite (Hfalse _ Hq). cbn -[lookup call_openrouter build_messages truthy].
    unfold py_or. rewrite (Hfalse _ Hp), Hno. reflexivity.
  - intros v Hload Hv. unfold main. rewrite Hkey, Hload. now destruct v.
Qed.

Lemma environ_or_nonempty (env : gmap string string) (name fallback : string) :
  fallback <> "" -> truthy (JStr (environ_or env name fallback)) = true.
Proof.
  intros Hf. unfold environ_or.
  destruct (env !! name) as [v|]; [|now apply truthy_nonempty].
  destruct (str_nonempty v) eqn:Hv; [exact Hv | now apply truthy_nonempty].
Qed.

(** X21: with the key [k] set and the question [q] given, [main] sends
    one request that does not depend on the server: to [OPENROUTER_URL],
    timeout 120, authorised by "Bearer k", with the referer and title of
    the environment or their defaults, the chosen model, the two messages
    built from [q], the chosen reasoning effort and, unless
    [--no-usage-details] is given, the usage request; what the server
    answers to it, HTTP errors turned into [sys.exit(1)], goes to the end
    of [main]. *)
Theorem main_sends_one_request (w : world) (args : argv) (k q : string) :
  environ w !! "OPENROUTER_API_KEY" = Some k -> k <> "" ->
  arg_question args = Some q -> q <> "" ->
  exists req,
    (forall send,
       main {| environ := environ w; fs := fs w; post := send |} args
       = (resp_json ←
            except_http_error
              match send req with
              | None => Raise ConnectionError
              | Some resp => _ ← raise_for_status resp; response_json resp
              end;
          after_response resp_json))
    /\ req_url req = OPENROUTER_URL /\ req_timeout req = 120
    /\ req_headers req !! "Authorization" = Some ("Bearer " ++ k)
    /\ req_headers req !! "HTTP-Referer"
       = Some (environ_or (environ w) "OPENROUTER_SITE_URL" "http://localhost")
    /\ req_headers req !! "X-Title"
       = Some (environ_or (environ w) "OPENROUTER_TITLE" "s1k-generation-test")
    /\ req_json req !! "model" = Some (JStr (arg_model args))
    /\ req_json req !! "messages" = Some (build_messages q)
    /\ req_json req !! "reasoning"
       = Some (JObj {[ "effort" := JStr (effort_str (arg_reasoning_effort args)) ]})
    /\ req_json req !! "usage"
       = (if arg_no_usage_details args
          then None else Some (JObj {[ "include" := JBool true ]})).
Proof.
  intros Hk Hkne Hq Hqne.
  destruct (call_openrouter_request k (arg_model args) (build_messages q)
              (arg_max_tokens args) (arg_temperature args) (arg_json_mode args)
              120
              (Some (environ_or (environ w) "OPENROUTER_SITE_URL" "http://localhost"))
              (Some (environ_or (environ w) "OPENROUTER_TITLE" "s1k-generation-test"))
              (Some (effort_str (arg_reasoning_effort args)))
              (negb (arg_no_usage_details args)))
    as (req & Hcall & (Hurl & Htime) & (Ha & _ & Hr & Ht & _)
        & (Hmodel & Hmsgs & _ & _ & _ & Heffort & Husage & _)).
  exists req. split.
  - intros send.
    rewrite (main_with_question _ args k q) by assumption.
    cbn [environ post]. now rewrite Hcall.
  - cbn [of_opt_str] in Hr, Ht, Heffort.
    rewrite environ_or_nonempty in Hr, Ht by discriminate.
    assert (He : truthy (JStr (effort_str (arg_reasoning_effort args))) = true)
      by now destruct (arg_reasoning_effort args).
    rewrite He in Heffort.
    repeat (split; [assumption|]).
    rewrite Husage. now destruct (arg_no_usage_details args).
Qed.

(** X22: the question can be read back from the messages:
    [build_messages] is injective. *)
Theorem build_messages_injective (q1 q2 : string) :
  build_messages q1 = build_messages q2 -> q1 = q2.
Proof.
  intros H.
  apply (f_equal (fun v => match v with
                           | JArr [_; JObj m] => m !! "content"
                           | _ => None
                           end)) in H.
  vm_compute in H. now injection H.
Qed.

End MoreClientProperties.

(** * The further properties on concrete inputs *)

Section MoreInstances.
Import Responses PrepS1k Shape Examples Report Program.
#[local] Existing Instance plain_runtime.

(** X1 on an answer "221" and on a content 0. *)
Lemma attempt_is_message_content_witness :
  response_shape answer_221 = true
  /\ first_message answer_221 !! "content" = Some (JStr "221")
  /\ (exists trace meta,
        extract_reasoning_and_answer (JObj answer_221) = Ok (trace, "221", meta))
  /\ exists trace meta,
       extract_reasoning_and_answer (JObj zero_content) = Ok (trace, "", meta).
Proof.
  split; [reflexivity|]. split; [reflexivity|]. split.
  - destruct (attempt_is_message_content answer_221 _ _ eq_refl eq_refl)
      as (trace & attempt & meta & He & Hs & _).
    exists trace, meta. now rewrite <- (Hs "221" eq_refl).
  - destruct (attempt_is_message_content zero_content _ _ eq_refl eq_refl)
      as (trace & attempt & meta & He & _ & _ & Hfalse & _).
    exists trace, meta. now rewrite <- (Hfalse (JInt 0) eq_refl eq_refl).
Defined.

(** X2 on the same answer. *)
Lemma meta_has_three_fields_witness :
  response_shape answer_221 = true
  /\ exists trace attempt meta,
       extract_reasoning_and_answer (JObj answer_221)
       = Ok (trace, attempt, JObj meta)
       /\ meta !! "finish_reason" = Some (JStr "stop")
       /\ meta !! "native_finish_reason" = Some JNull
       /\ meta !! "role" = Some (JStr "assistant").
Proof.
  split; [reflexivity|].
  destruct (meta_has_three_fields answer_221 _ _ eq_refl eq_refl)
    as (trace & attempt & meta & He & Hf & Hn & Hr & _).
  exists trace, attempt, meta.
  split; [exact He|]. split; [exact Hf|]. split; [exact Hn | exact Hr].
Defined.

(** X3: the second choice of the answer is not read. *)
Lemma extraction_reads_first_choice_only_witness :
  extract_reasoning_and_answer (JObj answer_221)
  = extract_reasoning_and_answer
      (JObj (<[ "choices" :=
                  JArr [ JObj {[ "message" :=
                                   JObj {[ "content" := JStr "221";
                                           "role" := JStr "assistant" ]};
                                 "finish_reason" := JStr "stop" ]} ] ]>
               answer_221)).
Proof.
  exact (extraction_reads_first_choice_only answer_221 _ [JInt 7] eq_refl).
Defined.

(** X4 on [{"choices": [1]}], [{"choices": [{"message": "hi"}]}] and
    [{"choices": 5}]. *)
Lemma extraction_raises_on_wrong_shape_witness :
  extract_reasoning_and_answer (JObj number_choice) = Raise AttributeError
  /\ extract_reasoning_and_answer
       (JObj {[ "choices" := JArr [JObj {[ "message" := JStr "hi" ]}] ]})
     = Raise AttributeError
  /\ extract_reasoning_and_answer (JObj {[ "choices" := JInt 5 ]})
     = Raise TypeError.
Proof.
  destruct extraction_raises_on_wrong_shape as (Hfirst & Hmsg & Hchoices).
  split; [|split].
  - exact (Hfirst number_choice (JInt 1) [] eq_refl eq_refl).
  - exact (Hmsg {[ "choices" := JArr [JObj {[ "message" := JStr "hi" ]}] ]}
             {[ "message" := JStr "hi" ]} [] (JStr "hi")
             eq_refl eq_refl eq_refl eq_refl).
  - exact (Hchoices {[ "choices" := JInt 5 ]} (JInt 5) eq_refl eq_refl eq_refl).
Defined.

(** X5 on [None], a string, a dict and a number. *)
Lemma join_of_non_list_witness :
  _join_reasoning_details JNull = Ok ""
  /\ _join_reasoning_details (JStr "thinking") = Ok ""
  /\ _join_reasoning_details (JObj {[ "text" := JStr "thinking" ]}) = Ok ""
  /\ _join_reasoning_details (JInt 5) = Raise TypeError.
Proof.
  destruct join_of_non_list as (Hfalse & Hstr & Hdict & Hnum).
  split; [exact (Hfalse JNull eq_refl)|]. split; [exact (Hstr "thinking")|].
  split; [exact (Hdict {[ "text" := JStr "thinking" ]})|].
  exact (Hnum (JInt 5) eq_refl eq_refl eq_refl eq_refl).
Defined.

(** X7: a good row, then a row without question, then a good row. *)
Lemma conversion_stops_at_first_failure_witness :
  exists obj,
    row_record row_2_plus_2 = Ok obj
    /\ row_record row_without_question = Raise KeyError
    /\ prep_s1k_chatml [row_2_plus_2; row_without_question; row_no_trace]
       = ([record_line obj], Raise KeyError).
Proof.
  eexists. split; [reflexivity|]. split; [reflexivity|].
  apply (conversion_stops_at_first_failure [row_2_plus_2] [row_no_trace]
           row_without_question [_] KeyError);
    [repeat constructor | reflexivity].
Defined.

(** X8 on a dataset that converts and on one that does not. *)
Lemma lines_written_bounded_by_rows_witness :
  (prep_s1k_chatml [row_2_plus_2; row_no_trace]).2 = Ok tt
  /\ length (prep_s1k_chatml [row_2_plus_2; row_no_trace]).1 = 2%nat
  /\ is_ok (prep_s1k_chatml [row_2_plus_2; row_without_question]).2 = false
  /\ (length (prep_s1k_chatml [row_2_plus_2; row_without_question]).1 < 2)%nat.
Proof.
  split; [reflexivity|]. split; [|split; [reflexivity|]].
  - apply (lines_written_bounded_by_rows [row_2_plus_2; row_no_trace]).
    reflexivity.
  - apply (lines_written_bounded_by_rows [row_2_plus_2; row_without_question]).
    reflexivity.
Defined.

(** X9 on four malformed rows. *)
Lemma row_record_raises_on_malformed_row_witness :
  row_record row_without_question = Raise KeyError
  /\ row_record {[ "question" := JNull; "attempt" := JStr "4" ]}
     = Raise AttributeError
  /\ row_record {[ "question" := JStr "2+2?" ]} = Raise KeyError
  /\ row_record {[ "question" := JStr "2+2?"; "attempt" := JStr "4";
                   "thinking_trajectories" := JArr [JNull] ]}
     = Raise AttributeError.
Proof.
  destruct row_record_raises_on_malformed_row as (Hq & Hqs & Ha & Ht).
  split; [exact (Hq row_without_question eq_refl)|].
  split; [exact (Hqs {[ "question" := JNull; "attempt" := JStr "4" ]} JNull
                   eq_refl eq_refl)|].
  split; [exact (Ha {[ "question" := JStr "2+2?" ]} "2+2?" eq_refl eq_refl)|].
  exact (Ht {[ "question" := JStr "2+2?"; "attempt" := JStr "4";
               "thinking_trajectories" := JArr [JNull] ]}
           "2+2?" (JStr "4") JNull [] eq_refl eq_refl eq_refl eq_refl).
Defined.

(** X10 on the padded row: the question " 2+2? " is written "2+2?". *)
Lemma record_contents_are_stripped_witness :
  row_record padded_row
  = Ok (JObj {[ "messages" :=
                  JArr [ message "user" "2+2?"; message "think" "Add.";
                         message "answer" "4" ] ]})
  /\ exists c, message_content (message "user" "2+2?") = Some c /\ strip c = c.
Proof.
  split; [reflexivity|].
  apply (record_contents_are_stripped padded_row
           (JObj {[ "messages" :=
                      JArr [ message "user" "2+2?"; message "think" "Add.";
                             message "answer" "4" ] ]}));
    [reflexivity | left; reflexivity].
Defined.

(** X11 on the padded row: without its [source] column and with another
    second trajectory the record is the same. *)
Lemma row_record_reads_three_fields_witness :
  row_record padded_row = row_record (delete "source" padded_row)
  /\ row_record (<[ "thinking_trajectories" := JArr [JStr " Add. "] ]> padded_row)
     = row_record padded_row.
Proof.
  destruct row_record_reads_three_fields as (Hfields & Hfirst).
  split.
  - apply Hfields; reflexivity.
  - exact (Hfirst padded_row (JStr " Add. ") [JStr "unused"] [] eq_refl).
Defined.

(** X12: the second line of a file of two lines, read as [{"id": 1}]. *)
Lemma load_question_returns_indexed_line_witness :
  two_lines !! "rows.jsonl" = Some (RegularFile ["{}"; "{}"])
  /\ ["{}"; "{}"] !! Z.to_nat 1 = Some "{}"
  /\ load_question (RT := runtime_reading (JObj {[ "id" := JInt 1 ]}))
       two_lines (Some "rows.jsonl") 1 None
     = Ok (JObj {[ "id" := JInt 1 ]}).
Proof.
  split; [reflexivity|]. split; [reflexivity|].
  apply (load_question_returns_indexed_line
           (RT := runtime_reading (JObj {[ "id" := JInt 1 ]}))
           two_lines "rows.jsonl" 1 None ["{}"; "{}"] "{}");
    [left; reflexivity | discriminate | reflexivity | lia | reflexivity].
Defined.

(** X13 with a referer and no title, on a 404 answer. *)
Lemma request_headers_witness :
  exists req,
    req_headers req !! "Authorization" = Some "Bearer sk"
    /\ req_headers req !! "HTTP-Referer" = Some "http://localhost"
    /\ req_headers req !! "X-Title" = None
    /\ call_openrouter (fun _ => Some not_found) "sk" "openai/gpt-oss-20b:free"
         (build_messages "What is 13*17?") 16384 float_0_7 false 120
         (Some "http://localhost") (Some "") (Some "medium") true
       = Raise (HTTPError 404).
Proof.
  destruct (request_headers "sk" "openai/gpt-oss-20b:free"
              (build_messages "What is 13*17?") 16384 float_0_7 false 120
              (Some "http://localhost") (Some "") (Some "medium") true)
    as (req & Hanswer & _ & _ & _ & Ha & _ & Hr & Ht & _).
  exists req. split; [exact Ha|]. split; [exact Hr|]. split; [exact Ht|].
  exact (Hanswer (fun _ => Some not_found) not_found eq_refl).
Defined.

(** X15: the run with a question is the same with and without the
    file. *)
Lemma main_with_question_ignores_files_witness :
  main (world_answering (ok_with (Some (JObj answer_221)))) args_with_question
  = main {| environ := {[ "OPENROUTER_API_KEY" := "sk" ]};
            fs := two_lines;
            post := fun _ => Some (ok_with (Some (JObj answer_221))) |}
      args_with_question.
Proof.
  apply (main_with_question_ignores_files
           (world_answering (ok_with (Some (JObj answer_221))))
           args_with_question "What is 13*17?" two_lines);
    [reflexivity | discriminate].
Defined.

(** X16 offline, on a 503 answer and on a 200 answer without JSON. *)
Lemma main_outcome_by_transport_witness :
  main world_offline args_with_question = Raise ConnectionError
  /\ main (world_answering server_error) args_with_question
     = Raise (SystemExit (ExitCode 1))
  /\ main (world_answering (ok_with None)) args_with_question
     = Raise JSONDecodeError.
Proof.
  split; [|split].
  - destruct (main_outcome_by_transport world_offline args_with_question
                "sk" "What is 13*17?" eq_refl ltac:(discriminate) eq_refl
                ltac:(discriminate)) as (Hoffline & _).
    apply Hoffline. reflexivity.
  - destruct (main_outcome_by_transport (world_answering server_error)
                args_with_question "sk" "What is 13*17?" eq_refl
                ltac:(discriminate) eq_refl ltac:(discriminate))
      as (_ & Herror & _).
    apply (Herror server_error); [intros req; reflexivity | cbn; lia].
  - destruct (main_outcome_by_transport (world_answering (ok_with None))
                args_with_question "sk" "What is 13*17?" eq_refl
                ltac:(discriminate) eq_refl ltac:(discriminate))
      as (_ & _ & Hbody).
    apply (Hbody (ok_with None));
      [intros req; reflexivity | cbn; lia | reflexivity].
Defined.


(** X18 on [{"choices": [{"message": null}]}]. *)
Lemma main_raises_on_null_message_witness :
  response_shape null_message = true
  /\ is_ok (extract_reasoning_and_answer (JObj null_message)) = true
  /\ main (world_answering (ok_with (Some (JObj null_message)))) args_with_question
     = Raise AttributeError
  /\ exit_status
       (main (world_answering (ok_with (Some (JObj null_message))))
          args_with_question) = 1.
Proof.
  split; [reflexivity|].
  apply (main_raises_on_null_message
           (world_answering (ok_with (Some (JObj null_message))))
           args_with_question "sk" "What is 13*17?"
           (ok_with (Some (JObj null_message))) null_message
           {[ "message" := JNull ]} [] JNull);
    [reflexivity | discriminate | reflexivity | discriminate
    | intros req; reflexivity | cbn; lia | reflexivity | reflexivity
    | reflexivity | reflexivity | reflexivity | reflexivity].
Defined.

(** X19 on [{"usage": null}]. *)
Lemma main_raises_on_null_usage_witness :
  response_shape null_usage = true
  /\ is_ok (extract_reasoning_and_answer (JObj null_usage)) = true
  /\ main (world_answering (ok_with (Some (JObj null_usage)))) args_with_question
     = Raise AttributeError
  /\ exit_status
       (main (world_answering (ok_with (Some (JObj null_usage))))
          args_with_question) = 1.
Proof.
  split; [reflexivity|].
  apply (main_raises_on_null_usage
           (world_answering (ok_with (Some (JObj null_usage))))
           args_with_question "sk" "What is 13*17?"
           (ok_with (Some (JObj null_usage))) null_usage JNull);
    [reflexivity | discriminate | reflexivity | discriminate
    | intros req; reflexivity | cbn; lia | reflexivity | reflexivity
    | reflexivity | reflexivity].
Defined.

(** X20 on a file whose rows read as [{"id": 1}], then as [[1]]. *)
Lemma main_stops_without_question_witness :
  api_key_set world_with_rows = true
  /\ main (RT := runtime_reading (JObj {[ "id" := JInt 1 ]}))
       world_with_rows args_from_rows
     = Raise (SystemExit (ExitMsg "Could not determine a question to send."))
  /\ main (RT := runtime_reading (JArr [JInt 1])) world_with_rows args_from_rows
     = Raise AttributeError.
Proof.
  split; [reflexivity|]. split.
  - destruct (main_stops_without_question
                (RT := runtime_reading (JObj {[ "id" := JInt 1 ]}))
                world_with_rows args_from_rows eq_refl) as (Hdict & _).
    apply (Hdict {[ "id" := JInt 1 ]}); reflexivity.
  - destruct (main_stops_without_question
                (RT := runtime_reading (JArr [JInt 1]))
                world_with_rows args_from_rows eq_refl) as (_ & Hother).
    apply (Hother (JArr [JInt 1])); reflexivity.
Defined.

(** X21 with the key "sk" and the default referer and title. *)
Lemma main_sends_one_request_witness :
  exists req,
    main (world_answering server_error) args_with_question
    = (resp_json ←
         except_http_error
           match post (world_answering server_error) req with
           | None => Raise ConnectionError
           | Some resp => _ ← raise_for_status resp; response_json resp
           end;
       after_response resp_json)
    /\ req_headers req !! "Authorization" = Some "Bearer sk"
    /\ req_headers req !! "HTTP-Referer" = Some "http://localhost"
    /\ req_headers req !! "X-Title" = Some "s1k-generation-test"
    /\ req_json req !! "messages" = Some (build_messages "What is 13*17?")
    /\ req_json req !! "reasoning" = Some (JObj {[ "effort" := JStr "medium" ]}).
Proof.
  destruct (main_sends_one_request (world_answering server_error)
              args_with_question "sk" "What is 13*17?" eq_refl
              ltac:(discriminate) eq_refl ltac:(discriminate))
    as (req & Hmain & _ & _ & Ha & Hr & Ht & _ & Hm & He & _).
  exists req. split; [exact (Hmain (post (world_answering server_error)))|].
  split; [exact Ha|]. split; [exact Hr|]. split; [exact Ht|].
  split; [exact Hm | exact He].
Defined.

(** X22 on one question. *)
Lemma build_messages_injective_witness :
  build_messages "What is 13*17?" = build_messages "What is 13*17?"
  /\ "What is 13*17?" = "What is 13*17?".
Proof.
  split; [reflexivity|].
  exact (build_messages_injective _ _ eq_refl).
Defined.

End MoreInstances.
